(** * eth-wallet-util: the [Wallet] class and its unit, key and monitor logic

    A shallow embedding of the wallet engine (the class [Wallet] and the
    declarations of [types.ts]).  Promises that reject and functions that
    throw are values of [result]; the remote node, the HD-key library and the
    ABI coder are records of functions the wallet is run against; the pieces
    of [web3-utils], [bn.js], [bignumber.js] and of the JavaScript [Number]
    type that the wallet's arithmetic goes through are modelled as they
    compute, on the inputs the wallet hands them. *)

From Stdlib Require Import ZArith NArith List String Ascii Bool Lia.
From Stdlib Require Import DecimalString HexadecimalString DecimalN.
From Stdlib Require Strings.Byte.
Import ListNotations.

Local Open Scope list_scope.
Local Open Scope string_scope.
Local Open Scope Z_scope.

(* ------------------------------------------------------------------ *)
(** ** Exceptions and rejected promises *)

(** The value carried by a JavaScript exception or a rejected promise: the
    message of the [Error]. *)
Definition JsError : Type := string.

(** An [await]ed call either yields a value or throws. *)
Inductive result (A : Type) : Type :=
| Ok (a : A)
| Throw (e : JsError).

Arguments Ok {A} a.
Arguments Throw {A} e.

Definition bind {A B : Type} (m : result A) (k : A -> result B) : result B :=
  match m with
  | Ok a => k a
  | Throw e => Throw e
  end.

Notation "x <- m ;; k" := (bind m (fun x => k))
  (at level 61, m at next level, right associativity).

(* ------------------------------------------------------------------ *)
(** ** JavaScript strings (as byte strings) *)

Module JsString.

Definition code (c : ascii) : N := N_of_ascii c.

Definition is_digit (c : ascii) : bool :=
  ((48 <=? code c) && (code c <=? 57))%N.

Definition is_lower_hex (c : ascii) : bool :=
  ((97 <=? code c) && (code c <=? 102))%N.

Definition is_upper_hex (c : ascii) : bool :=
  ((65 <=? code c) && (code c <=? 70))%N.

(** [[0-9A-Fa-f]] *)
Definition is_hex (c : ascii) : bool :=
  is_digit c || is_lower_hex c || is_upper_hex c.

(** [[a-fA-F]] *)
Definition is_alpha_hex (c : ascii) : bool :=
  is_lower_hex c || is_upper_hex c.

Definition is_upper (c : ascii) : bool :=
  ((65 <=? code c) && (code c <=? 90))%N.

(** The characters [\s] and [trim] treat as white space, among the one-byte
    characters: TAB, LF, VT, FF, CR and SPACE. *)
Definition is_space (c : ascii) : bool :=
  ((9 <=? code c) && (code c <=? 13) || (code c =? 32))%N.

Fixpoint all_chars (p : ascii -> bool) (s : string) : bool :=
  match s with
  | EmptyString => true
  | String c s' => p c && all_chars p s'
  end.

Definition is_empty (s : string) : bool :=
  match s with
  | EmptyString => true
  | String _ _ => false
  end.

(** A regular expression [^[class]+$]. *)
Definition some_chars (p : ascii -> bool) (s : string) : bool :=
  negb (is_empty s) && all_chars p s.

Definition lower_char (c : ascii) : ascii :=
  if is_upper c then ascii_of_N (code c + 32) else c.

Fixpoint toLowerCase (s : string) : string :=
  match s with
  | EmptyString => EmptyString
  | String c s' => String (lower_char c) (toLowerCase s')
  end.

Fixpoint trimStart (s : string) : string :=
  match s with
  | EmptyString => EmptyString
  | String c s' => if is_space c then trimStart s' else s
  end.

Fixpoint rev_onto (s acc : string) : string :=
  match s with
  | EmptyString => acc
  | String c s' => rev_onto s' (String c acc)
  end.

Definition reverse (s : string) : string := rev_onto s EmptyString.

Definition trimEnd (s : string) : string := reverse (trimStart (reverse s)).

Definition trim (s : string) : string := trimEnd (trimStart s).

(** [s.slice(n)] for [0 <= n]. *)
Fixpoint slice_from (n : nat) (s : string) : string :=
  match n, s with
  | O, _ => s
  | S n', String _ s' => slice_from n' s'
  | S _, EmptyString => EmptyString
  end.

(** [s.split(sep)] for a one-character separator: the pieces between the
    occurrences of [sep], the empty ones included. *)
Fixpoint split_char (sep : ascii) (s : string) : list string :=
  match s with
  | EmptyString => [EmptyString]
  | String c s' =>
      if Ascii.eqb c sep then EmptyString :: split_char sep s'
      else match split_char sep s' with
           | [] => [String c EmptyString]
           | piece :: rest => String c piece :: rest
           end
  end.

(** [s.split(/\s+/g)]: the pieces between the maximal runs of white space;
    a run at either end of [s] leaves an empty piece there. [in_run] tells
    that the character before [s] belonged to a run. *)
Fixpoint split_spaces_from (in_run : bool) (s : string) : list string :=
  match s with
  | EmptyString => [EmptyString]
  | String c s' =>
      if is_space c then
        if in_run then split_spaces_from true s'
        else EmptyString :: split_spaces_from true s'
      else match split_spaces_from false s' with
           | [] => [String c EmptyString]
           | piece :: rest => String c piece :: rest
           end
  end.

Definition split_spaces (s : string) : list string :=
  split_spaces_from false s.

Fixpoint repeat_char (c : ascii) (n : nat) : string :=
  match n with
  | O => EmptyString
  | S n' => String c (repeat_char c n')
  end.


End JsString.

(* ------------------------------------------------------------------ *)
(** ** bn.js: arbitrary-precision integers

    A [BN] is an integer of unbounded size: [Z].  Only its text forms need a
    model. *)

Module BN.
Import JsString.

Definition digit_value (c : ascii) : Z :=
  if is_digit c then Z.of_N (code c) - 48
  else if is_lower_hex c then Z.of_N (code c) - 87
  else if is_upper_hex c then Z.of_N (code c) - 55
  else 0.

Fixpoint parse_from (base acc : Z) (s : string) : Z :=
  match s with
  | EmptyString => acc
  | String c s' => parse_from base (base * acc + digit_value c) s'
  end.

(** [new BN(s, base)] for a string of digits of [base] with an optional
    leading minus sign. *)
Definition of_string (base : Z) (s : string) : Z :=
  match s with
  | String "-" s' => - parse_from base 0 s'
  | _ => parse_from base 0 s
  end.

(** [n.toString(10)] *)
Definition toString (n : Z) : string :=
  let digits := DecimalString.NilEmpty.string_of_uint (N.to_uint (Z.abs_N n)) in
  if n <? 0 then String "-" digits else digits.

(** [n.toString(16)]: lower-case digits, no prefix. *)
Definition toString16 (n : Z) : string :=
  let digits :=
    HexadecimalString.NilEmpty.string_of_uint (N.to_hex_uint (Z.abs_N n)) in
  if n <? 0 then String "-" digits else digits.

End BN.

(* ------------------------------------------------------------------ *)
(** ** The JavaScript [Number] type, on integers

    A [Number] is an IEEE 754 double.  The wallet only ever converts the text
    of an unsigned integer to a [Number] and prints it back, so the model
    holds the doubles with an integer value, the infinities and [NaN]. *)

Module JsNumber.
Import JsString.

Inductive number : Type :=
| Finite (m : Z)
| Infinity (negative : bool)
| NaN.

(** The double nearest to the integer [0 <= n], ties to the even
    significand (53 bits), as an integer; at or above [2^1024] the
    rounding has left the finite doubles. *)
Definition round_to_double (n : Z) : Z :=
  if n <? 2 ^ 53 then n
  else
    let e := Z.log2 n - 52 in
    let q := Z.shiftr n e in
    let r := n - Z.shiftl q e in
    let half := Z.shiftl 1 (e - 1) in
    let q' := if (half <? r) || ((r =? half) && Z.odd q) then q + 1 else q in
    Z.shiftl q' e.

Definition of_Z (n : Z) : number :=
  let m := round_to_double (Z.abs n) in
  if 2 ^ 1024 <=? m then Infinity (n <? 0)
  else Finite (if n <? 0 then - m else m).

(** [Number(s)] for the text of a decimal integer (white space around it
    and a sign allowed; the empty text is [0]).  The literal forms with a
    fraction, an exponent or a radix prefix are not modelled and read as
    [NaN]: the callers never pass them. *)
Definition of_string (s : string) : number :=
  let t := trim s in
  match t with
  | EmptyString => Finite 0
  | String "-" d => if some_chars is_digit d then of_Z (- BN.parse_from 10 0 d) else NaN
  | String "+" d => if some_chars is_digit d then of_Z (BN.parse_from 10 0 d) else NaN
  | _ => if some_chars is_digit t then of_Z (BN.parse_from 10 0 t) else NaN
  end.

(** The global [isFinite(s)]. *)
Definition isFinite (s : string) : bool :=
  match of_string s with
  | Finite _ => true
  | _ => false
  end.

Definition ndigits (m : Z) : Z := Z.of_nat (String.length (BN.toString m)).

(** [String(m)] writes the fewest significant digits [k] that read back as
    the double [m], and among the candidates with [k] digits the one
    nearest to [m] (the even one on a tie).  For [0 < m] an integer the
    candidates are the multiples of [10^(ndigits m - k)] on either side of
    [m]. [candidate m k] is the value written with [k] digits, if any. *)
Definition candidate (m k : Z) : option Z :=
  let p := 10 ^ (ndigits m - k) in
  let lo := (m / p) * p in
  let hi := lo + p in
  let ok_lo := round_to_double lo =? m in
  let ok_hi := round_to_double hi =? m in
  match ok_lo, ok_hi with
  | true, true =>
      if m - lo <? hi - m then Some lo
      else if hi - m <? m - lo then Some hi
      else if Z.even (m / p) then Some lo else Some hi
  | true, false => Some lo
  | false, true => Some hi
  | false, false => None
  end.

Fixpoint shortest_from (fuel : nat) (k m : Z) : Z :=
  match fuel with
  | O => m
  | S fuel' =>
      if ndigits m <=? k then m
      else match candidate m k with
           | Some v => v
           | None => shortest_from fuel' (k + 1) m
           end
  end.

(** The decimal value of the text [String(m)] for a double [0 <= m] with an
    integer value: at most 17 significant digits. *)
Definition printed_value (m : Z) : Z := shortest_from 17 1 m.

End JsNumber.

(* ------------------------------------------------------------------ *)
(** ** web3-utils (with number-to-bn and ethjs-unit), on strings *)

Module Web3Utils.
Import JsString.

Definition hex_digit (n : N) : ascii :=
  if (n <? 10)%N then ascii_of_N (48 + n) else ascii_of_N (87 + n).

(** Two lower-case hexadecimal digits for a character code. *)
Definition hex_of_code (n : N) : string :=
  String (hex_digit (n / 16)) (String (hex_digit (n mod 16)) EmptyString).

Fixpoint hex_of_chars (s : string) : string :=
  match s with
  | EmptyString => EmptyString
  | String c s' => hex_of_code (code c) ++ hex_of_chars s'
  end.

(** strip-hex-prefix: drops a leading [0x]. *)
Definition stripHexPrefix (s : string) : string :=
  if prefix "0x" s then slice_from 2 s else s.

(** [/^-?[0-9]+$/] *)
Definition is_integer_text (s : string) : bool :=
  match s with
  | String "-" d => some_chars is_digit d
  | _ => some_chars is_digit s
  end.

Definition invalid_number_value : JsError :=
  "[number-to-bn] invalid number value. Value must be an integer, hex string, BN or BigNumber instance. Note, decimals are not supported.".

(** A double quote. *)
Definition quote : string := String (ascii_of_N 34) EmptyString.

(** number-to-bn's [numberToBN(arg)] for a string.  An integer in decimal
    digits, or in hexadecimal digits (with a [0x] prefix or with a letter
    among them), an optional minus sign first; anything else, a decimal
    point included, throws. *)
Definition numberToBN (arg : string) : result Z :=
  let formattedString := trim (toLowerCase arg) in
  let isHexPrefixed :=
    prefix "0x" formattedString || prefix "-0x" formattedString in
  let stripped := stripHexPrefix formattedString in
  let '(unsigned, multiplier) :=
    match stripped with
    | String "-" rest => (stripHexPrefix rest, -1)
    | _ => (stripped, 1)
    end in
  let stringArg := if is_empty unsigned then "0" else unsigned in
  if (negb (is_integer_text stringArg) && some_chars is_hex stringArg)
     || some_chars is_alpha_hex stringArg
     || (isHexPrefixed && some_chars is_hex stringArg)
  then Ok (BN.of_string 16 stringArg * multiplier)
  else if is_integer_text stringArg && negb isHexPrefixed
  then Ok (BN.of_string 10 stringArg * multiplier)
  else Throw invalid_number_value.

(** [toBN(arg)]: [numberToBN], its error re-thrown with the argument. *)
Definition toBN (arg : string) : result Z :=
  match numberToBN arg with
  | Ok n => Ok n
  | Throw e =>
      Throw ("Error: " ++ e ++ " Given value: " ++ quote ++ arg ++ quote)
  end.

(** [toBN(n)] for a [Number] holding the integer [n], below [10^21] in
    absolute value so that [String(n)] is in plain digits: its decimal
    digits are read back. *)
Definition toBN_number (n : Z) : result Z := toBN (BN.toString n).

(** [[0-9.]] *)
Definition is_decimal_char (c : ascii) : bool := is_digit c || Ascii.eqb c ".".

(** ethjs-unit's [numberToString] on a string: [/^-?[0-9.]+$/]. *)
Definition numberToString (arg : string) : result string :=
  let body := match arg with String "-" r => r | _ => arg end in
  if some_chars is_decimal_char body then Ok arg
  else Throw ("while converting number to string, invalid number value '"
              ++ arg ++ "', should be a number matching (^-?[0-9.]+).").

Definition or_zero (s : string) : string :=
  if is_empty s then "0" else s.

(** ethjs-unit's [toWei(etherInput, unit)] for a unit of [baseLength]
    decimals. *)
Definition toWei_unit (baseLength : nat) (etherInput : string) : result Z :=
  ether0 <- numberToString etherInput ;;
  let base := 10 ^ Z.of_nat baseLength in
  let negative := prefix "-" ether0 in
  let ether := if negative then slice_from 1 ether0 else ether0 in
  if String.eqb ether "." then
    Throw ("[ethjs-unit] while converting number " ++ etherInput
           ++ " to wei, invalid value")
  else
    match split_char "." ether with
    | _ :: _ :: _ :: _ =>
        Throw ("[ethjs-unit] while converting number " ++ etherInput
               ++ " to wei,  too many decimal points")
    | comps =>
        let whole := or_zero (nth 0 comps EmptyString) in
        let fraction := or_zero (nth 1 comps EmptyString) in
        if (baseLength <? String.length fraction)%nat then
          Throw ("[ethjs-unit] while converting number " ++ etherInput
                 ++ " to wei, too many decimal places")
        else
          let padded :=
            (fraction ++ repeat_char "0" (baseLength - String.length fraction))%string in
          let wei := BN.of_string 10 whole * base + BN.of_string 10 padded in
          Ok (if negative then wei * -1 else wei)
    end.

(** [toWei(number, "ether")] for a string: the base-10 text of the amount
    in wei. *)
Definition toWei (number : string) : result string :=
  wei <- toWei_unit 18 number ;;
  Ok (BN.toString wei).

(** The fraction without its trailing zeros, the single digit zero when
    there are only zeros (ethjs-unit matches the padded fraction against a
    pattern that leaves the trailing zeros out). *)
Definition strip_trailing_zeros (digits : string) : string :=
  let kept := reverse (
    (fix drop (s : string) : string :=
       match s with
       | String "0" s' => drop s'
       | _ => s
       end) (reverse digits)) in
  or_zero kept.

(** ethjs-unit's [fromWei(weiInput, unit)] for a unit of [baseLength]
    decimals, on a [BN]. *)
Definition fromWei_unit (baseLength : nat) (weiInput : Z) : string :=
  let negative := weiInput <? 0 in
  let wei := Z.abs weiInput in
  let base := 10 ^ Z.of_nat baseLength in
  let digits := BN.toString (wei mod base) in
  let fraction :=
    strip_trailing_zeros
      (repeat_char "0" (baseLength - String.length digits) ++ digits)%string in
  let whole := BN.toString (wei / base) in
  let value :=
    (whole ++ (if String.eqb fraction "0" then EmptyString
               else String "." fraction))%string in
  if negative then String "-" value else value.

(** [fromWei(number, "ether")] for a string. *)
Definition fromWei (number : string) : result string :=
  wei <- numberToBN number ;;
  Ok (fromWei_unit 18 wei).

Section WithChecksum.

(** [checkAddressChecksum]: the capitalisation test of a mixed-case
    address, a hash computation left to the caller. *)
Variable checkAddressChecksum : string -> bool.

Definition strip_0x_any_case (s : string) : string :=
  if prefix "0x" s || prefix "0X" s then slice_from 2 s else s.

(** [isAddress]: forty hexadecimal digits after an optional [0x]; all of
    one case is an address, mixed case needs its checksum. *)
Definition isAddress (address : string) : bool :=
  let body := strip_0x_any_case address in
  if (String.length body =? 40)%nat && all_chars is_hex body then
    if all_chars (fun c => is_digit c || is_lower_hex c) body
       || all_chars (fun c => is_digit c || is_upper_hex c) body
    then true
    else checkAddressChecksum address
  else false.

(** [/^(-)?0x[0-9a-f]*$/i] *)
Definition isHexStrict (hex : string) : bool :=
  let body := match hex with String "-" r => r | _ => hex end in
  (prefix "0x" body || prefix "0X" body) && all_chars is_hex (slice_from 2 body).

(** [utf8ToHex]: the bytes of the string in hexadecimal, NUL padding
    dropped at both ends. *)
Definition utf8ToHex (str : string) : string :=
  let drop_nul := fix drop (s : string) : string :=
    match s with
    | String c s' => if (code c =? 0)%N then drop s' else s
    | EmptyString => EmptyString
    end in
  let inner := reverse (drop_nul (reverse (drop_nul str))) in
  ("0x" ++ hex_of_chars inner)%string.

Definition numberToHex (value : string) : result string :=
  if negb (JsNumber.isFinite value) && negb (isHexStrict value) then
    Throw ("Given input " ++ quote ++ value ++ quote ++ " is not a number.")
  else
    number <- toBN value ;;
    let digits := BN.toString16 number in
    Ok (if number <? 0 then ("-0x" ++ slice_from 1 digits)%string
        else ("0x" ++ digits)%string).

(** [toHex(value)] for a string: an address is returned as it stands
    (lower-cased), then a hexadecimal literal, then a text that is not a
    finite number (as UTF-8), and only then a number. *)
Definition toHex (value : string) : result string :=
  if isAddress value then
    Ok ("0x" ++ strip_0x_any_case (toLowerCase value))%string
  else if prefix "-0x" value || prefix "-0X" value then numberToHex value
  else if prefix "0x" value || prefix "0X" value then Ok value
  else if negb (JsNumber.isFinite value) then Ok (utf8ToHex value)
  else numberToHex value.

(** [toHex(n)] for a [Number] holding the integer [n], below [10^21] in
    absolute value so that [String(n)] is in plain digits. *)
Definition toHex_number (n : Z) : result string :=
  numberToHex (BN.toString n).

End WithChecksum.

End Web3Utils.

(* ------------------------------------------------------------------ *)
(** ** bignumber.js, with its default configuration

    A [BigNumber] is a decimal [c * 10^e], an infinity or [NaN] (the sign of a
    zero is not kept).  Quotients are rounded to [DECIMAL_PLACES = 20] places,
    half away from zero ([ROUNDING_MODE = 4]); [toString] switches to
    exponential notation below [1e-7] and from [1e21] on. *)

Module BigNumber.
Import JsString.

Inductive t : Type :=
| Dec (c e : Z)
| Infinity (negative : bool)
| NaN.

Definition DECIMAL_PLACES : Z := 20.
Definition TO_EXP_NEG : Z := -7.
Definition TO_EXP_POS : Z := 21.

(** [new BigNumber(x)] for a [Number]: the digits of [String(x)]. *)
Definition of_number (x : JsNumber.number) : t :=
  match x with
  | JsNumber.Finite m =>
      let v := JsNumber.printed_value (Z.abs m) in
      Dec (if m <? 0 then - v else v) 0
  | JsNumber.Infinity negative => Infinity negative
  | JsNumber.NaN => NaN
  end.

(** [x.exponentiatedBy(n)] for a non-negative integer [n]: exact. *)
Definition exponentiatedBy (x : t) (n : nat) : t :=
  match x, n with
  | _, O => Dec 1 0
  | Dec c e, _ => Dec (c ^ Z.of_nat n) (e * Z.of_nat n)
  | Infinity negative, _ => Infinity (negative && Nat.odd n)
  | NaN, _ => NaN
  end.

(** [x.dividedBy(y)] *)
Definition dividedBy (x y : t) : t :=
  match x, y with
  | NaN, _ | _, NaN => NaN
  | Infinity _, Infinity _ => NaN
  | Infinity negative, Dec cy _ => Infinity (xorb negative (cy <? 0))
  | Dec _ _, Infinity _ => Dec 0 0
  | Dec cx ex, Dec cy ey =>
      if cy =? 0 then
        if cx =? 0 then NaN else Infinity (cx <? 0)
      else
        let k := ex - ey + DECIMAL_PLACES in
        let num := Z.abs cx * (if 0 <=? k then 10 ^ k else 1) in
        let den := Z.abs cy * (if 0 <=? k then 1 else 10 ^ (- k)) in
        let q := (2 * num + den) / (2 * den) in
        Dec (if xorb (cx <? 0) (cy <? 0) then - q else q) (- DECIMAL_PLACES)
  end.

Fixpoint drop_zeros (s : string) : string :=
  match s with
  | String "0" s' => drop_zeros s'
  | _ => s
  end.

Fixpoint take (n : nat) (s : string) : string :=
  match n, s with
  | S n', String c s' => String c (take n' s')
  | _, _ => EmptyString
  end.

(** [x.toString()] *)
Definition toString (x : t) : string :=
  match x with
  | NaN => "NaN"
  | Infinity negative => if negative then "-Infinity" else "Infinity"
  | Dec c e0 =>
      if c =? 0 then "0"
      else
        let all_digits := BN.toString (Z.abs c) in
        (* the coefficient without trailing zeros, and the exponent of its
           first digit *)
        let digits := reverse (drop_zeros (reverse all_digits)) in
        let e := e0 + Z.of_nat (String.length all_digits) - 1 in
        let k := Z.of_nat (String.length digits) in
        let magnitude :=
          if (e <=? TO_EXP_NEG) || (TO_EXP_POS <=? e) then
            ((match digits with
              | String d (String d' rest) => String d (String "." (String d' rest))
              | _ => digits
              end)
             ++ (if (e <? 0)%Z then "e-" else "e+") ++ BN.toString (Z.abs e))%string
          else if e <? 0 then
            ("0." ++ repeat_char "0" (Z.to_nat (- e - 1)) ++ digits)%string
          else if e + 1 <? k then
            (take (Z.to_nat (e + 1)) digits ++ "."
             ++ slice_from (Z.to_nat (e + 1)) digits)%string
          else
            (digits ++ repeat_char "0" (Z.to_nat (e + 1 - k)))%string in
        if c <? 0 then String "-" magnitude else magnitude
  end.

End BigNumber.

(* ------------------------------------------------------------------ *)
(** ** Node.js buffers *)

Module Buffer.
Import JsString.

Definition t : Type := list Byte.byte.

(** [Buffer.from(s)]: the bytes of the text. *)
Definition from (s : string) : t := list_byte_of_string s.

Definition byte_of_Z (n : Z) : Byte.byte :=
  match Byte.of_N (Z.to_N n) with
  | Some b => b
  | None => Byte.x00
  end.

(** [Buffer.from(s, "hex")]: one byte per pair of hexadecimal digits, up to
    the first pair that is not one. *)
Fixpoint from_hex (s : string) : t :=
  match s with
  | String a (String b rest) =>
      if is_hex a && is_hex b then
        byte_of_Z (16 * BN.digit_value a + BN.digit_value b) :: from_hex rest
      else []
  | _ => []
  end.

(** [b.toString("hex")] *)
Fixpoint toString_hex (b : t) : string :=
  match b with
  | [] => EmptyString
  | x :: b' => (Web3Utils.hex_of_code (Byte.to_N x) ++ toString_hex b')%string
  end.

End Buffer.

(* ------------------------------------------------------------------ *)
(** ** types.ts *)

Inductive NetTypes : Type := MAIN | TEST.

Inductive WalletTypes : Type := DEFAULT | HD | MULTISIG.

Inductive TokenTypes : Type :=
| ETH | USDT | USDC | BNB | BUSD | NGNT | UNI | LINK | DAI.

(** The run-time value of a member of the string enum [TokenTypes]. *)
Definition TokenTypes_value (t : TokenTypes) : string :=
  match t with
  | ETH => "eth" | USDT => "usdt" | USDC => "usdc" | BNB => "bnb"
  | BUSD => "busd" | NGNT => "ngnt" | UNI => "uni" | LINK => "link"
  | DAI => "dai"
  end.

Inductive EventType : Type := NEW_PAYMENT | UNCONFIRMED | DATA.

Module IWallet.
Record t : Type := mk {
  privateKey : string;
  mnemonics : option string;
  address : string;
  checkSumAddress : string;
  publicKey : string
}.
End IWallet.

(** A transaction as the node returns it.  [to] is [null] for a contract
    creation, so it is optional here. *)
Module ITransaction.
Record t : Type := mk {
  blockHash : string;
  blockNumber : Z;
  from : string;
  gas : Z;
  gasPrice : string;
  hash : string;
  input : string;
  nonce : Z;
  to : option string;
  transactionIndex : Z;
  value : string
}.
End ITransaction.

Module ICreateWalletOptions.
Record t : Type := mk {
  type : option WalletTypes;
  privateKey : option string;
  mnemonics : option string
}.
End ICreateWalletOptions.

Module IGetBalanceOptions.
Record t : Type := mk {
  address : string;
  token : option TokenTypes
}.
End IGetBalanceOptions.

Module IEstimate.
Record t : Type := mk {
  nonce : string;
  to : string;
  value : string;
  gasLimit : Z;
  gasPrice : string;
  data : option string
}.
End IEstimate.

Module ISend.
Record t : Type := mk {
  from : string;
  to : string;
  amount : string;
  token : option TokenTypes
}.
End ISend.

Module TToken.
Record t : Type := mk {
  symbol : string;
  name : string;
  contractAddress : string;
  decimals : nat;
  description : string;
  url : string
}.
End TToken.

(* ------------------------------------------------------------------ *)
(** ** What the wallet runs against *)

(** A [Web3] handle: the endpoint it was constructed for. *)
Record Web3 : Type := new_Web3 { endpoint : string }.

(** The object handed to [eth.estimateGas]: the fields of the descriptor built
    so far, and [from]. *)
Module GasQuery.
Record t : Type := mk {
  nonce : string;
  to : string;
  value : option string;
  data : option string;
  from : string
}.
End GasQuery.

(** The answers of the node behind a handle.  A field is what the promise of
    the call of that name settles to. *)
Module Node.
Record t : Type := mk {
  getTransactionCount : string -> result Z;
  getGasPrice : result string;
  estimateGas : GasQuery.t -> result Z;
  getBalance : string -> result string;
  (** resolves to [null] ([None]) for a hash the node does not know *)
  getTransaction : string -> result (option ITransaction.t);
  (** the payload of the first [receipt] event of
      [sendSignedTransaction(raw)], if that event ever fires *)
  sendSignedTransaction : string -> option (option ITransaction.t)
}.
End Node.

(** bip39, hdkey and ethereumjs-util. *)
Module KeyLib.
Record t : Type := mk {
  HDNode : Type;
  mnemonicToSeed : string -> Buffer.t;
  fromMasterSeed : Buffer.t -> HDNode;
  derive : HDNode -> string -> HDNode;
  privateKey : HDNode -> Buffer.t;
  publicKey : HDNode -> Buffer.t;
  (** throws on a key that is not a valid secp256k1 private key *)
  privateToPublic : Buffer.t -> result Buffer.t;
  publicToAddress : Buffer.t -> Buffer.t;
  toChecksumAddress : string -> string
}.
End KeyLib.

(** The token registry [./tokens], the interfaces [./abis/erc20] and web3's
    contract objects built from them. *)
Module ContractLib.
Record t : Type := mk {
  erc20Tokens : NetTypes -> list TToken.t;
  Contract : Type;
  (** [new handle.eth.Contract(erc20ContractAbi[token], address, {from})] *)
  newContract : Web3 -> TokenTypes -> string -> option string -> result Contract;
  (** the four-byte selector of the interface's [transfer], eight
      hexadecimal digits *)
  transferSelector : Contract -> string;
  (** the ABI encoding of the arguments [(to, value)] of [transfer], in
      hexadecimal digits *)
  encodeTransferArguments : Contract -> string -> string -> result string;
  (** what [contract.methods.balanceOf(address).call] settles to: the text
      of an unsigned integer *)
  callBalanceOf : Contract -> string -> result string;
  (** web3's capitalisation test of a mixed-case address *)
  checkAddressChecksum : string -> bool
}.
End ContractLib.

(** The fields handed to ethereumjs-tx's [Transaction]. *)
Module TxData.
Record t : Type := mk {
  nonce : string;
  to : string;
  value : string;
  gasLimit : string;
  gasPrice : string;
  data : option string
}.
End TxData.

(** ethereumjs-tx: [new Tx(fields, {chain})], [sign(key)] and [serialize()]
    in one. *)
Definition Signer : Type := TxData.t -> string -> Buffer.t -> result Buffer.t.

(** A promise: settled, or never settled. *)
Inductive promise (A : Type) : Type :=
| Settled (r : result A)
| Forever.

Arguments Settled {A} r.
Arguments Forever {A}.

(* ------------------------------------------------------------------ *)
(** ** The class [Wallet] *)

Record Wallet : Type := mkWallet {
  net : NetTypes;
  provider : Web3;
  socketProvider : Web3
}.

Definition DEFAULT_DERIVATION_PATH : string := "m/44'/60'/0'/0/0".

Definition initProvider (url : string) (w : Wallet) : Wallet :=
  {| net := net w; provider := new_Web3 url; socketProvider := socketProvider w |}.

Definition initSocketProvider (url : string) (w : Wallet) : Wallet :=
  {| net := net w; provider := provider w; socketProvider := new_Web3 url |}.

(** The name of the network in the endpoints and in the chain tag. *)
Definition chain_name (n : NetTypes) : string :=
  match n with
  | MAIN => "mainnet"
  | TEST => "ropsten"
  end.

(** [new Wallet(net)], [net] defaulting to [NetTypes.TEST]. *)
Definition constructor (net_arg : option NetTypes) : Wallet :=
  let net0 := match net_arg with Some n => n | None => TEST end in
  {| net := net0;
     provider :=
       new_Web3 ("https://" ++ chain_name net0
                 ++ ".infura.io/v3/c01fb7971b8747c58f5035e4a5a7f6d2");
     socketProvider :=
       new_Web3 ("wss://" ++ chain_name net0
                 ++ ".infura.io/ws/v3/c0c01fb7971b8747c58f5035e4a5a7f6d21fb7971b8747c58f5035e4a5a7f6d2") |}.

Definition newInstance (n : NetTypes) : Wallet := constructor (Some n).

Definition setNet (n : NetTypes) (w : Wallet) : Wallet :=
  {| net := n; provider := provider w; socketProvider := socketProvider w |}.

Definition setJsonRcpUrl (url : string) (w : Wallet) : Wallet :=
  initProvider url w.

(** An optional string that is truthy: present and not empty. *)
Definition truthy (s : option string) : option string :=
  match s with
  | Some s' => if JsString.is_empty s' then None else Some s'
  | None => None
  end.

Definition isEth (token : TokenTypes) : bool :=
  String.eqb (TokenTypes_value token) (TokenTypes_value ETH).

Definition isValidMnemonic (phrase : string) : bool :=
  (12 <=? List.length (JsString.split_spaces (JsString.trim phrase)))%nat.

(** The derivation path written by the template in [generateAddress]. *)
Definition derivation_path (derivationIndex : N) : string :=
  "m/44'/60'/0'/0/" ++ BN.toString (Z.of_N derivationIndex).

(** The token a call is about, when it is not the native asset:
    [token && !this.isEth(token)]. *)
Definition token_asset (token : option TokenTypes) : option TokenTypes :=
  match token with
  | Some t => if isEth t then None else Some t
  | None => None
  end.

Section Keys.

Variable keys : KeyLib.t.

(** [createWallet(opts)]; [fresh] is what [generateMnemonic()] returns if
    it is called. *)
Definition createWallet (fresh : string)
    (opts : option ICreateWalletOptions.t) : result IWallet.t :=
  match opts with
  | Some {| ICreateWalletOptions.type := Some MULTISIG |} =>
      Throw "Wallet type not supported yet."
  | _ =>
      let mnemonics :=
        match truthy (match opts with
                      | Some o => ICreateWalletOptions.mnemonics o
                      | None => None
                      end) with
        | Some m => m
        | None => fresh
        end in
      let seed := KeyLib.mnemonicToSeed keys mnemonics in
      let root := KeyLib.fromMasterSeed keys seed in
      let addressNode := KeyLib.derive keys root DEFAULT_DERIVATION_PATH in
      let privateKey :=
        match truthy (match opts with
                      | Some o => ICreateWalletOptions.privateKey o
                      | None => None
                      end) with
        | Some k => Buffer.from k
        | None => KeyLib.privateKey keys addressNode
        end in
      pubKey <- KeyLib.privateToPublic keys privateKey ;;
      let address :=
        "0x" ++ Buffer.toString_hex (KeyLib.publicToAddress keys pubKey) in
      let checkSumAddress := KeyLib.toChecksumAddress keys address in
      Ok {| IWallet.address := address;
            IWallet.checkSumAddress := checkSumAddress;
            IWallet.publicKey :=
              Buffer.toString_hex (KeyLib.publicKey keys addressNode);
            IWallet.privateKey := Buffer.toString_hex privateKey;
            IWallet.mnemonics := Some mnemonics |}
  end.

(** [generateAddress(mnemonics, derivationIndex = 1)] *)
Definition generateAddress (mnemonics : string)
    (derivationIndex : option N) : result IWallet.t :=
  let index := match derivationIndex with Some i => i | None => 1%N end in
  if negb (isValidMnemonic mnemonics) then Throw "Invalid Mnemonics"
  else
    let seed := KeyLib.mnemonicToSeed keys mnemonics in
    let root := KeyLib.fromMasterSeed keys seed in
    let masterPrivateKey := Buffer.toString_hex (KeyLib.privateKey keys root) in
    let masterPublicKey := Buffer.toString_hex (KeyLib.publicKey keys root) in
    let addressNode := KeyLib.derive keys root (derivation_path index) in
    pubKey <- KeyLib.privateToPublic keys (KeyLib.privateKey keys addressNode) ;;
    let address :=
      "0x" ++ Buffer.toString_hex (KeyLib.publicToAddress keys pubKey) in
    let checkSumAddress := KeyLib.toChecksumAddress keys address in
    Ok {| IWallet.address := address;
          IWallet.checkSumAddress := checkSumAddress;
          IWallet.publicKey := masterPublicKey;
          IWallet.privateKey := masterPrivateKey;
          IWallet.mnemonics := Some mnemonics |}.

End Keys.

Section Ledger.

Variable contracts : ContractLib.t.
Variable network : Web3 -> Node.t.
Variable sign_and_serialize : Signer.

Definition toHex : string -> result string :=
  Web3Utils.toHex (ContractLib.checkAddressChecksum contracts).

Definition balanceOf (w : Wallet) (address : string) : result string :=
  Node.getBalance (network (provider w)) address.

Definition getTokenContract (w : Wallet) (token : TokenTypes)
    (contractAddress : string) (from : option string)
    : result (ContractLib.Contract contracts) :=
  ContractLib.newContract contracts (provider w) token contractAddress from.

Definition contractBalanceOf (contract : ContractLib.Contract contracts)
    (address : string) : result string :=
  ContractLib.callBalanceOf contracts contract address.

Definition transactionCount (w : Wallet) (address : string) : result Z :=
  Node.getTransactionCount (network (provider w)) address.

(** Resolves with the first receipt, rejects if that receipt is falsy,
    and is never settled if no receipt event fires. *)
Definition broadcastTransaction (w : Wallet) (rawTrx : string)
    : promise ITransaction.t :=
  match Node.sendSignedTransaction (network (provider w)) rawTrx with
  | Some (Some receipt) => Settled (Ok receipt)
  | Some None => Settled (Throw "Broadcast Transaction Failed!")
  | None => Forever
  end.

(** [netSupportedTokens.find(t => t.symbol === token.toLowerCase())] *)
Definition find_token (w : Wallet) (token : TokenTypes) : option TToken.t :=
  List.find
    (fun t => String.eqb (TToken.symbol t)
                (JsString.toLowerCase (TokenTypes_value token)))
    (ContractLib.erc20Tokens contracts (net w)).

(** [contract.methods.transfer(to, value).encodeABI()]: the selector of the
    method, then its encoded arguments. *)
Definition encodeABI_transfer (contract : ContractLib.Contract contracts)
    (to value : string) : result string :=
  arguments <- ContractLib.encodeTransferArguments contracts contract to value ;;
  Ok ("0x" ++ ContractLib.transferSelector contracts contract ++ arguments).

Definition estimateFees (w : Wallet) (opts : ISend.t) : result IEstimate.t :=
  let from := ISend.from opts in
  let to := ISend.to opts in
  let amount := ISend.amount opts in
  trxCount <- transactionCount w from ;;
  nonce <- Web3Utils.toHex_number trxCount ;;
  gasPrice <- Node.getGasPrice (network (provider w)) ;;
  match token_asset (ISend.token opts) with
  | Some token =>
      let _token := find_token w token in
      let contractAddress :=
        match _token with
        | Some t => TToken.contractAddress t
        | None => EmptyString
        end in
      contract <- getTokenContract w token contractAddress (Some from) ;;
      _amount <- Web3Utils.toBN amount ;;
      decimal <- Web3Utils.toBN_number
                   (match _token with
                    | Some t => Z.of_nat (TToken.decimals t)
                    | None => 18
                    end) ;;
      ten <- Web3Utils.toBN_number 10 ;;
      let value := _amount * ten ^ decimal in
      data <- encodeABI_transfer contract to (BN.toString value) ;;
      gasLimit <- Node.estimateGas (network (provider w))
                    {| GasQuery.nonce := nonce;
                       GasQuery.to := contractAddress;
                       GasQuery.value := None;
                       GasQuery.data := Some data;
                       GasQuery.from := from |} ;;
      Ok {| IEstimate.nonce := nonce;
            IEstimate.to := contractAddress;
            IEstimate.data := Some data;
            IEstimate.value := "0x0";
            IEstimate.gasLimit := gasLimit;
            IEstimate.gasPrice := gasPrice |}
  | None =>
      wei <- Web3Utils.toWei amount ;;
      value <- toHex wei ;;
      gasLimit <- Node.estimateGas (network (provider w))
                    {| GasQuery.nonce := nonce;
                       GasQuery.to := to;
                       GasQuery.value := Some value;
                       GasQuery.data := None;
                       GasQuery.from := from |} ;;
      Ok {| IEstimate.nonce := nonce;
            IEstimate.to := to;
            IEstimate.value := value;
            IEstimate.data := None;
            IEstimate.gasLimit := gasLimit;
            IEstimate.gasPrice := gasPrice |}
  end.

(** The raw transaction [send] signs: the descriptor's fields, tagged with
    the chain of [this.net]. *)
Definition raw_transaction (w : Wallet) (opts : IEstimate.t)
    (privKey : string) : result string :=
  gasLimit <- Web3Utils.toHex_number (IEstimate.gasLimit opts) ;;
  gasPrice <- toHex (IEstimate.gasPrice opts) ;;
  let trxObj :=
    {| TxData.nonce := IEstimate.nonce opts;
       TxData.to := IEstimate.to opts;
       TxData.value := IEstimate.value opts;
       TxData.gasLimit := gasLimit;
       TxData.gasPrice := gasPrice;
       TxData.data := IEstimate.data opts |} in
  serialized <- sign_and_serialize trxObj (chain_name (net w))
                  (Buffer.from_hex privKey) ;;
  Ok ("0x" ++ Buffer.toString_hex serialized).

Definition send (w : Wallet) (opts : IEstimate.t) (privKey : string)
    : promise ITransaction.t :=
  match raw_transaction w opts privKey with
  | Ok raw => broadcastTransaction w raw
  | Throw e => Settled (Throw e)
  end.

Definition getBalance (w : Wallet) (opts : IGetBalanceOptions.t)
    : result string :=
  match token_asset (IGetBalanceOptions.token opts) with
  | Some opts_token =>
      let token := find_token w opts_token in
      let contractAddress :=
        match token with
        | Some t => TToken.contractAddress t
        | None => EmptyString
        end in
      contract <- getTokenContract w opts_token contractAddress None ;;
      raw <- contractBalanceOf contract (IGetBalanceOptions.address opts) ;;
      let bigNumberBalance := BigNumber.of_number (JsNumber.of_string raw) in
      let bigNumberDecimal :=
        BigNumber.exponentiatedBy (BigNumber.Dec 10 0)
          (match token with
           | Some t => match TToken.decimals t with
                       | O => 18%nat
                       | d => d
                       end
           | None => 18%nat
           end) in
      Ok (BigNumber.toString
            (BigNumber.dividedBy bigNumberBalance bigNumberDecimal))
  | None =>
      wei <- balanceOf w (IGetBalanceOptions.address opts) ;;
      Web3Utils.fromWei wei
  end.

Definition getTransaction (w : Wallet) (trxHash : string)
    : result (option ITransaction.t) :=
  Node.getTransaction (network (provider w)) trxHash.

End Ledger.

(** The fields [send] hands to the signer for a descriptor whose gas limit
    and gas price are numbers in decimal digits. *)
Definition signed_fields (opts : IEstimate.t) : TxData.t :=
  {| TxData.nonce := IEstimate.nonce opts;
     TxData.to := IEstimate.to opts;
     TxData.value := IEstimate.value opts;
     TxData.gasLimit := "0x" ++ BN.toString16 (IEstimate.gasLimit opts);
     TxData.gasPrice :=
       "0x" ++ BN.toString16 (BN.parse_from 10 0 (IEstimate.gasPrice opts));
     TxData.data := IEstimate.data opts |}.

(* ------------------------------------------------------------------ *)
(** ** [subscribe]: the payment monitor *)

(** An argument of [emit]. *)
Inductive EventArg : Type :=
| ArgHash (hash : string)
| ArgTransaction (tx : ITransaction.t)
| ArgError (e : JsError).

(** A call [this.emit(event, ...args)]. *)
Record Emission : Type := emit { event : EventType; args : list EventArg }.

(** [vault.includes(a)] *)
Definition includes (vault : list string) (a : string) : bool :=
  existsb (String.eqb a) vault.

(** The recipient of a transaction: a truthy [tx.to]. *)
Definition recipient (tx : ITransaction.t) : option string :=
  truthy (ITransaction.to tx).

(** The body of the timer callback for [hash], run against the answer of
    [provider.eth.getTransaction(hash)]: what it emits. *)
Definition recheck (vault : list string) (hash : string)
    (response : result (option ITransaction.t)) : list Emission :=
  match response with
  | Ok (Some tx) =>
      match recipient tx with
      | Some to =>
          if includes vault to then [emit NEW_PAYMENT [ArgTransaction tx]]
          else []
      | None => []
      end
  | Ok None => []
  | Throw e => [emit UNCONFIRMED [ArgError e; ArgHash hash]]
  end.

(** A timer set by the [data] handler: its delay in milliseconds and the
    hash its callback has captured. *)
Record Timer : Type := setTimeout { captured : string; delay : Z }.

(** The monitor between two callbacks: the timers not yet run, and every
    emission so far, each with the hash whose handler made it. *)
Record Monitor : Type := mkMonitor {
  timers : list Timer;
  emitted : list (string * Emission)
}.

(** What the event loop runs: the [data] handler on a hash of the
    subscription, or the callback of a pending timer, with the answer the
    node then gives for its hash. *)
Inductive Callback : Type :=
| OnData (hash : string)
| OnTimer (hash : string) (response : result (option ITransaction.t)).

Definition on_data (hash : string) (m : Monitor) : Monitor :=
  {| timers := timers m ++ [setTimeout hash (1000 * 60 * 3)];
     emitted := emitted m ++ [(hash, emit DATA [ArgHash hash])] |}.

(** Removes the oldest timer that captured [hash], if there is one. *)
Fixpoint take_timer (hash : string) (ts : list Timer) : option (list Timer) :=
  match ts with
  | [] => None
  | t :: ts' =>
      if String.eqb (captured t) hash then Some ts'
      else match take_timer hash ts' with
           | Some rest => Some (t :: rest)
           | None => None
           end
  end.

Definition on_timer (vault : list string) (hash : string)
    (response : result (option ITransaction.t)) (m : Monitor)
    : option Monitor :=
  match take_timer hash (timers m) with
  | Some rest =>
      Some {| timers := rest;
              emitted := emitted m
                         ++ map (pair hash) (recheck vault hash response) |}
  | None => None
  end.

(** A schedule of callbacks; [None] when it runs a timer that was never
    set. *)
Fixpoint run (vault : list string) (schedule : list Callback) (m : Monitor)
    : option Monitor :=
  match schedule with
  | [] => Some m
  | OnData hash :: rest => run vault rest (on_data hash m)
  | OnTimer hash response :: rest =>
      match on_timer vault hash response m with
      | Some m' => run vault rest m'
      | None => None
      end
  end.

(** [subscribe(vault)] registers the [data] handler on a monitor that has
    emitted nothing. *)
Definition subscribe (vault : list string) (schedule : list Callback)
    : option Monitor :=
  run vault schedule {| timers := []; emitted := [] |}.

(** The emissions made on behalf of [hash], in order. *)
Definition events_of (hash : string) (m : Monitor) : list Emission :=
  map snd (filter (fun e => String.eqb (fst e) hash) (emitted m)).

(** What a callback emits, tagged with its hash. *)
Definition emissions (vault : list string) (cb : Callback)
    : list (string * Emission) :=
  match cb with
  | OnData hash => [(hash, emit DATA [ArgHash hash])]
  | OnTimer hash response => map (pair hash) (recheck vault hash response)
  end.

(** The hash a callback is about. *)
Definition hash_of (cb : Callback) : string :=
  match cb with
  | OnData hash => hash
  | OnTimer hash _ => hash
  end.


(** A timer for [hash] is pending. *)
Definition pending (hash : string) (ts : list Timer) : Prop :=
  exists t, In t ts /\ captured t = hash.

(** Between callbacks, the events of a hash that has a timer pending or
    an event emitted start with its [DATA]. *)
Definition data_first (m : Monitor) : Prop :=
  forall hash,
    pending hash (timers m) \/ events_of hash m <> [] ->
    exists rest, events_of hash m = emit DATA [ArgHash hash] :: rest.

(* ------------------------------------------------------------------ *)
(** ** The conversions as the specification words them *)

Module Spec.
Import JsString.

(** The digits of a decimal amount [whole.fraction]. *)
Definition digits (s : string) : bool := all_chars is_digit s.

(** [toBaseUnits]: the amount [whole.fraction] multiplied by
    [10^decimals], exactly; an integer when the fraction has at most
    [decimals] digits. *)
Definition toBaseUnits (whole fraction : string) (decimals : nat) : Z :=
  BN.parse_from 10 0 whole * 10 ^ Z.of_nat decimals
  + BN.parse_from 10 0 fraction
    * 10 ^ Z.of_nat (decimals - String.length fraction).

(** [toHumanUnits]: the base amount divided by [10^decimals], exactly, in
    decimal digits: the integer part, then every digit of the fraction up
    to the last one that is not zero. *)
Definition toHumanUnits (baseAmount : Z) (decimals : nat) : string :=
  Web3Utils.fromWei_unit decimals baseAmount.





(** Letter case apart. *)
Definition same_modulo_case (a b : string) : Prop :=
  toLowerCase a = toLowerCase b.

End Spec.

(* ------------------------------------------------------------------ *)
(** ** A concrete environment, to run the wallet on *)

Module Fixture.
Import JsString.

Definition usdt : TToken.t :=
  {| TToken.symbol := "usdt";
     TToken.name := "Tether USD";
     TToken.contractAddress := "0xdac17f958d2ee523a2206206994597c13d831ec7";
     TToken.decimals := 6;
     TToken.description := "Tether";
     TToken.url := "https://tether.to" |}.

Definition left_pad (width : nat) (s : string) : string :=
  repeat_char "0" (width - String.length s) ++ s.

Record contract : Type := mkContract {
  interface_of : TokenTypes;
  options_address : string;
  options_from : option string
}.

(** A registry with one token, and contract objects that encode the
    arguments of [transfer(address,uint256)] as two 32-byte words. *)
Definition contracts (balance : string) : ContractLib.t :=
  {| ContractLib.erc20Tokens := fun _ => [usdt];
     ContractLib.Contract := contract;
     ContractLib.newContract :=
       fun _ token address from => Ok (mkContract token address from);
     ContractLib.transferSelector := fun _ => "a9059cbb";
     ContractLib.encodeTransferArguments :=
       fun _ to value =>
         Ok (left_pad 64 (Web3Utils.strip_0x_any_case (toLowerCase to))
             ++ left_pad 64 (BN.toString16 (BN.of_string 10 value)));
     ContractLib.callBalanceOf := fun _ _ => Ok balance;
     ContractLib.checkAddressChecksum := fun _ => true |}.

(** A token registered without decimals. *)
Definition points : TToken.t :=
  {| TToken.symbol := "link";
     TToken.name := "Points";
     TToken.contractAddress := "0x514910771af9ca656af840dff83e8264ecf986ca";
     TToken.decimals := 0;
     TToken.description := "A token counted in whole units";
     TToken.url := "https://example.org" |}.

(** The contracts of [contracts], with [points] in the registry. *)
Definition contracts_with_points (balance : string) : ContractLib.t :=
  {| ContractLib.erc20Tokens := fun _ => [usdt; points];
     ContractLib.Contract := contract;
     ContractLib.newContract :=
       fun _ token address from => Ok (mkContract token address from);
     ContractLib.transferSelector := fun _ => "a9059cbb";
     ContractLib.encodeTransferArguments :=
       fun _ to value =>
         Ok (left_pad 64 (Web3Utils.strip_0x_any_case (toLowerCase to))
             ++ left_pad 64 (BN.toString16 (BN.of_string 10 value)));
     ContractLib.callBalanceOf := fun _ _ => Ok balance;
     ContractLib.checkAddressChecksum := fun _ => true |}.

Definition node (native_balance : string) : Node.t :=
  {| Node.getTransactionCount := fun _ => Ok 7;
     Node.getGasPrice := Ok "20000000000";
     Node.estimateGas := fun _ => Ok 21000;
     Node.getBalance := fun _ => Ok native_balance;
     Node.getTransaction := fun _ => Ok None;
     Node.sendSignedTransaction := fun _ => None |}.

Definition network (native_balance : string) : Web3 -> Node.t :=
  fun _ => node native_balance.

(** A network whose node answers the count and the price and refuses to
    estimate the gas. *)
Definition network_refusing_gas (e : JsError) : Web3 -> Node.t :=
  fun _ =>
    {| Node.getTransactionCount := fun _ => Ok 7;
       Node.getGasPrice := Ok "20000000000";
       Node.estimateGas := fun _ => Throw e;
       Node.getBalance := fun _ => Ok "0";
       Node.getTransaction := fun _ => Ok None;
       Node.sendSignedTransaction := fun _ => None |}.

Definition alice : string := "0x00000000000000000000000000000000000a11ce".
Definition bob : string := "0x0000000000000000000000000000000000000b0b".

(** A stand-in key library: nodes are byte strings, a child is its parent
    followed by the path, and a public key is the private key reversed. *)
Definition keys : KeyLib.t :=
  {| KeyLib.HDNode := Buffer.t;
     KeyLib.mnemonicToSeed := Buffer.from;
     KeyLib.fromMasterSeed := fun seed => seed;
     KeyLib.derive := fun parent path => (parent ++ Buffer.from path)%list;
     KeyLib.privateKey := fun node => node;
     KeyLib.publicKey := fun node => rev node;
     KeyLib.privateToPublic :=
       fun key => match key with
                  | [] => Throw "private key length is invalid"
                  | _ => Ok (rev key)
                  end;
     KeyLib.publicToAddress := fun pub => firstn 20 pub;
     KeyLib.toChecksumAddress := fun a => a |}.

(** The same library, taking private keys of 32 bytes only. *)
Definition strict_keys : KeyLib.t :=
  {| KeyLib.HDNode := Buffer.t;
     KeyLib.mnemonicToSeed := Buffer.from;
     KeyLib.fromMasterSeed := fun seed => seed;
     KeyLib.derive := fun parent path => (parent ++ Buffer.from path)%list;
     KeyLib.privateKey := fun node => firstn 32 node;
     KeyLib.publicKey := fun node => rev node;
     KeyLib.privateToPublic :=
       fun key => if (List.length key =? 32)%nat then Ok (rev key)
                  else Throw "private key length is invalid";
     KeyLib.publicToAddress := fun pub => firstn 20 pub;
     KeyLib.toChecksumAddress := fun a => a |}.

Definition twelve_words : string :=
  "one two three four five six seven eight nine ten eleven twelve".

Definition signer : Signer :=
  fun fields chain key =>
    Ok (Buffer.from (chain ++ ":" ++ TxData.to fields ++ ":"
                     ++ TxData.value fields) ++ key)%list.

(** A mined transfer of one ether to [to]. *)
Definition payment (to : string) : ITransaction.t :=
  {| ITransaction.blockHash := "0xb10c";
     ITransaction.blockNumber := 1;
     ITransaction.from := alice;
     ITransaction.gas := 21000;
     ITransaction.gasPrice := "20000000000";
     ITransaction.hash := "h1";
     ITransaction.input := "0x";
     ITransaction.nonce := 7;
     ITransaction.to := Some to;
     ITransaction.transactionIndex := 0;
     ITransaction.value := "1000000000000000000" |}.

(** A network whose node mines what it is sent and answers with the
    receipt of [payment bob]. *)
Definition network_mining : Web3 -> Node.t :=
  fun _ =>
    {| Node.getTransactionCount := fun _ => Ok 7;
       Node.getGasPrice := Ok "20000000000";
       Node.estimateGas := fun _ => Ok 21000;
       Node.getBalance := fun _ => Ok "0";
       Node.getTransaction := fun _ => Ok None;
       Node.sendSignedTransaction := fun _ => Some (Some (payment bob)) |}.

End Fixture.

(* ------------------------------------------------------------------ *)
(** * Properties *)

(** ** Strings *)

Module JsStringFacts.
Import JsString.

Lemma append_nil_r (s : string) : (s ++ EmptyString)%string = s.
Proof. induction s as [|c s IH]; simpl; congruence. Qed.

Lemma append_assoc (a b c : string) :
  ((a ++ b) ++ c)%string = (a ++ (b ++ c))%string.
Proof. induction a as [|x a IH]; simpl; congruence. Qed.

Lemma length_append (a b : string) :
  String.length (a ++ b) = (String.length a + String.length b)%nat.
Proof. induction a as [|x a IH]; simpl; congruence. Qed.

Lemma rev_onto_spec (s acc : string) :
  rev_onto s acc = (reverse s ++ acc)%string.
Proof.
  unfold reverse. revert acc.
  induction s as [|c s IH]; intros acc; simpl; [reflexivity|].
  rewrite (IH (String c acc)), (IH (String c EmptyString)).
  now rewrite append_assoc.
Qed.

Lemma reverse_cons (c : ascii) (s : string) :
  reverse (String c s) = (reverse s ++ String c EmptyString)%string.
Proof. unfold reverse at 1. simpl. apply rev_onto_spec. Qed.

Lemma reverse_app (a b : string) :
  reverse (a ++ b) = (reverse b ++ reverse a)%string.
Proof.
  induction a as [|c a IH]; simpl.
  - now rewrite append_nil_r.
  - now rewrite !reverse_cons, IH, append_assoc.
Qed.

Lemma reverse_involutive (s : string) : reverse (reverse s) = s.
Proof.
  induction s as [|c s IH]; [reflexivity|].
  now rewrite reverse_cons, reverse_app, IH.
Qed.

Lemma length_reverse (s : string) : String.length (reverse s) = String.length s.
Proof.
  induction s as [|c s IH]; [reflexivity|].
  rewrite reverse_cons, length_append, IH. simpl. lia.
Qed.

Lemma all_chars_app (p : ascii -> bool) (a b : string) :
  all_chars p (a ++ b) = all_chars p a && all_chars p b.
Proof.
  induction a as [|c a IH]; simpl; [reflexivity|].
  now rewrite IH, andb_assoc.
Qed.

Lemma all_chars_reverse (p : ascii -> bool) (s : string) :
  all_chars p (reverse s) = all_chars p s.
Proof.
  induction s as [|c s IH]; [reflexivity|].
  rewrite reverse_cons, all_chars_app, IH. simpl.
  rewrite andb_true_r. apply andb_comm.
Qed.

Lemma all_chars_impl (p q : ascii -> bool) (s : string) :
  (forall c, p c = true -> q c = true) ->
  all_chars p s = true -> all_chars q s = true.
Proof.
  intros Hpq. induction s as [|c s IH]; simpl; [reflexivity|].
  intros H. apply andb_true_iff in H as [Hc Hs].
  now rewrite (Hpq _ Hc), IH.
Qed.

Lemma all_chars_repeat (p : ascii -> bool) (c : ascii) (n : nat) :
  p c = true -> all_chars p (repeat_char c n) = true.
Proof. intros H. induction n as [|n IH]; simpl; [reflexivity|]. now rewrite H. Qed.

Lemma length_repeat_char (c : ascii) (n : nat) :
  String.length (repeat_char c n) = n.
Proof. induction n as [|n IH]; simpl; congruence. Qed.



Lemma trimStart_id (s : string) :
  all_chars (fun c => negb (is_space c)) s = true -> trimStart s = s.
Proof.
  destruct s as [|c s]; simpl; [reflexivity|].
  intros H. apply andb_true_iff in H as [Hc _].
  now destruct (is_space c).
Qed.

Lemma trim_id (s : string) :
  all_chars (fun c => negb (is_space c)) s = true -> trim s = s.
Proof.
  intros H. unfold trim, trimEnd.
  rewrite (trimStart_id s H).
  rewrite trimStart_id by now rewrite all_chars_reverse.
  apply reverse_involutive.
Qed.

Lemma toLowerCase_id (s : string) :
  all_chars (fun c => negb (is_upper c)) s = true -> toLowerCase s = s.
Proof.
  induction s as [|c s IH]; simpl; [reflexivity|].
  intros H. apply andb_true_iff in H as [Hc Hs].
  unfold lower_char. destruct (is_upper c); [discriminate|].
  now rewrite IH.
Qed.

Ltac code_cases :=
  unfold is_hex, is_alpha_hex in *;
  unfold is_digit, is_lower_hex, is_upper_hex, is_upper, is_space in *;
  repeat match goal with
         | |- context [(?a <=? ?b)%N] => destruct (N.leb_spec a b)
         | H : context [(?a <=? ?b)%N] |- _ => destruct (N.leb_spec a b)
         | |- context [(?a =? ?b)%N] => destruct (N.eqb_spec a b)
         | H : context [(?a =? ?b)%N] |- _ => destruct (N.eqb_spec a b)
         end; simpl in *; try reflexivity; try congruence; try lia.

Lemma digit_not_space (c : ascii) : is_digit c = true -> negb (is_space c) = true.
Proof. intros H. code_cases. Qed.

Lemma digit_not_upper (c : ascii) : is_digit c = true -> negb (is_upper c) = true.
Proof. intros H. code_cases. Qed.

Lemma digit_is_hex (c : ascii) : is_digit c = true -> is_hex c = true.
Proof. intros H. unfold is_hex. now rewrite H. Qed.

Lemma digit_not_alpha_hex (c : ascii) : is_digit c = true -> is_alpha_hex c = false.
Proof. intros H. code_cases. Qed.

Lemma digit_code (c : ascii) : is_digit c = true -> (48 <= code c <= 57)%N.
Proof. intros H. code_cases. Qed.

End JsStringFacts.

(** ** Decimal texts *)

Module BNFacts.
Import JsString JsStringFacts.

Lemma string_of_uint_digits (d : Decimal.uint) :
  all_chars is_digit (DecimalString.NilEmpty.string_of_uint d) = true.
Proof. induction d; simpl; auto. Qed.

Lemma string_of_uint_nonempty (d : Decimal.uint) :
  d <> Decimal.Nil ->
  is_empty (DecimalString.NilEmpty.string_of_uint d) = false.
Proof. destruct d; simpl; congruence. Qed.

Lemma to_uint_nonnil (n : N) : N.to_uint n <> Decimal.Nil.
Proof.
  destruct n as [|p]; simpl; [discriminate|].
  apply DecimalPos.Unsigned.to_uint_nonnil.
Qed.

Lemma parse_from_acc (d : Decimal.uint) (acc : positive) :
  BN.parse_from 10 (Zpos acc) (DecimalString.NilEmpty.string_of_uint d)
  = Zpos (Pos.of_uint_acc d acc).
Proof.
  revert acc.
  induction d; intros acc; cbn [DecimalString.NilEmpty.string_of_uint
                                BN.parse_from Pos.of_uint_acc];
    [reflexivity|..]; rewrite <- IHd; f_equal;
    match goal with
    | |- context [BN.digit_value ?c] =>
        let v := eval vm_compute in (BN.digit_value c) in
        change (BN.digit_value c) with v
    end; lia.
Qed.

Lemma parse_from_of_uint (d : Decimal.uint) :
  BN.parse_from 10 0 (DecimalString.NilEmpty.string_of_uint d)
  = Z.of_N (Pos.of_uint d).
Proof.
  induction d; cbn [DecimalString.NilEmpty.string_of_uint BN.parse_from
                    Pos.of_uint]; try reflexivity; try exact IHd;
    apply parse_from_acc.
Qed.

(** The text [n.toString(10)] of a [BN] [0 <= n] is one digit or more. *)
Lemma toString_digits (n : Z) :
  0 <= n -> some_chars is_digit (BN.toString n) = true.
Proof.
  intros Hn. unfold BN.toString.
  destruct (Z.ltb_spec n 0); [lia|].
  unfold some_chars.
  rewrite string_of_uint_nonempty by apply to_uint_nonnil.
  now rewrite string_of_uint_digits.
Qed.

Lemma toString_all_digits (n : Z) :
  0 <= n -> all_chars is_digit (BN.toString n) = true.
Proof.
  intros Hn. pose proof (toString_digits n Hn) as H.
  unfold some_chars in H. now apply andb_true_iff in H.
Qed.

Lemma toString_nonempty (n : Z) : is_empty (BN.toString n) = false.
Proof.
  unfold BN.toString. destruct (n <? 0); [reflexivity|].
  apply string_of_uint_nonempty, to_uint_nonnil.
Qed.

(** Reading back the decimal text of a [BN]. *)
Lemma parse_toString (n : Z) :
  0 <= n -> BN.parse_from 10 0 (BN.toString n) = n.
Proof.
  intros Hn. unfold BN.toString.
  destruct (Z.ltb_spec n 0); [lia|].
  rewrite parse_from_of_uint.
  change (Pos.of_uint (N.to_uint (Z.abs_N n)))
    with (N.of_uint (N.to_uint (Z.abs_N n))).
  rewrite DecimalN.Unsigned.of_to. lia.
Qed.

Lemma of_string_toString (n : Z) : BN.of_string 10 (BN.toString n) = n.
Proof.
  destruct (Z.ltb_spec n 0) as [Hneg|Hpos].
  - unfold BN.toString. destruct (Z.ltb_spec n 0); [|lia].
    cbn [BN.of_string].
    rewrite parse_from_of_uint.
    change (Pos.of_uint (N.to_uint (Z.abs_N n)))
      with (N.of_uint (N.to_uint (Z.abs_N n))).
    rewrite DecimalN.Unsigned.of_to. lia.
  - pose proof (toString_digits n Hpos) as Hd.
    pose proof (parse_toString n Hpos) as Hp.
    unfold BN.of_string.
    destruct (BN.toString n) as [|c s] eqn:E; [exact Hp|].
    destruct (Ascii.eqb_spec c "-") as [->|Hc]; [discriminate Hd|].
    destruct c as [[] [] [] [] [] [] [] []]; try exact Hp; congruence.
Qed.

Lemma digit_value_range (c : ascii) :
  is_digit c = true -> 0 <= BN.digit_value c <= 9.
Proof.
  intros H. unfold BN.digit_value. rewrite H.
  pose proof (digit_code c H). lia.
Qed.

Lemma parse_from_nonneg (s : string) (acc : Z) :
  all_chars is_digit s = true -> 0 <= acc -> 0 <= BN.parse_from 10 acc s.
Proof.
  revert acc.
  induction s as [|c s IH]; intros acc; cbn [BN.parse_from all_chars];
    [easy|].
  intros H Hacc. apply andb_true_iff in H as [Hc Hs].
  apply IH; [exact Hs|]. pose proof (digit_value_range c Hc). lia.
Qed.

(** Reading [a ++ b] reads [a], shifts it by the length of [b], and
    adds [b]. *)
Lemma parse_from_app (a b : string) (acc : Z) :
  BN.parse_from 10 acc (a ++ b)
  = BN.parse_from 10 acc a * 10 ^ Z.of_nat (String.length b)
    + BN.parse_from 10 0 b.
Proof.
  assert (Hb : forall b acc,
    BN.parse_from 10 acc b
    = acc * 10 ^ Z.of_nat (String.length b) + BN.parse_from 10 0 b).
  { clear. induction b as [|c b IH]; intros acc.
    - simpl. lia.
    - cbn [BN.parse_from String.length].
      rewrite (IH (10 * acc + _)), (IH (10 * 0 + _)).
      rewrite Nat2Z.inj_succ, Z.pow_succ_r by lia. ring. }
  revert acc. induction a as [|c a IH]; intros acc.
  - simpl. apply Hb.
  - cbn [append BN.parse_from]. apply IH.
Qed.

Lemma parse_from_zeros (n : nat) : BN.parse_from 10 0 (repeat_char "0" n) = 0.
Proof. induction n as [|n IH]; [reflexivity|exact IH]. Qed.

End BNFacts.

(** ** Numbers in and out of web3-utils *)

Module Web3UtilsFacts.
Import JsString JsStringFacts BNFacts.

Ltac digit_cases c H :=
  destruct c as [[] [] [] [] [] [] [] []]; try discriminate H.

Lemma digits_no_space (s : string) :
  all_chars is_digit s = true ->
  all_chars (fun c => negb (is_space c)) s = true.
Proof. apply all_chars_impl, digit_not_space. Qed.

Lemma digits_no_upper (s : string) :
  all_chars is_digit s = true ->
  all_chars (fun c => negb (is_upper c)) s = true.
Proof. apply all_chars_impl, digit_not_upper. Qed.

Lemma digits_no_0x (s : string) :
  all_chars is_digit s = true -> prefix "0x" s = false.
Proof.
  destruct s as [|c [|d r]]; cbn [prefix all_chars]; try reflexivity.
  - now destruct (ascii_dec "0" c).
  - intros H. destruct (ascii_dec "0" c); [|reflexivity].
    destruct (ascii_dec "x" d) as [<-|]; [|reflexivity].
    now rewrite andb_false_r in H.
Qed.

Lemma digits_no_0X (s : string) :
  all_chars is_digit s = true -> prefix "0X" s = false.
Proof.
  destruct s as [|c [|d r]]; cbn [prefix all_chars]; try reflexivity.
  - now destruct (ascii_dec "0" c).
  - intros H. destruct (ascii_dec "0" c); [|reflexivity].
    destruct (ascii_dec "X" d) as [<-|]; [|reflexivity].
    now rewrite andb_false_r in H.
Qed.

Lemma digits_no_minus (p s : string) :
  all_chars is_digit s = true -> prefix (String "-" p) s = false.
Proof.
  destruct s as [|c r]; cbn [prefix all_chars]; [reflexivity|].
  intros H. destruct (ascii_dec "-" c) as [<-|]; [discriminate H|reflexivity].
Qed.

(** [numberToBN] reads a text of decimal digits in base ten. *)
Lemma numberToBN_digits (s : string) :
  some_chars is_digit s = true ->
  Web3Utils.numberToBN s = Ok (BN.parse_from 10 0 s).
Proof.
  intros H. unfold some_chars in H. apply andb_true_iff in H as [Hne Hd].
  unfold Web3Utils.numberToBN.
  rewrite (toLowerCase_id s (digits_no_upper s Hd)).
  rewrite (trim_id s (digits_no_space s Hd)).
  unfold Web3Utils.stripHexPrefix.
  rewrite (digits_no_0x s Hd), (digits_no_minus _ s Hd).
  destruct s as [|c r]; [discriminate Hne|].
  cbn [all_chars] in Hd. apply andb_true_iff in Hd as [Hc Hr].
  assert (Hsome : forall p, p c = true -> some_chars p (String c r)
                                          = all_chars p r).
  { intros p Hp. unfold some_chars. cbn. now rewrite Hp. }
  assert (Hnone : forall p, p c = false -> some_chars p (String c r) = false).
  { intros p Hp. unfold some_chars. cbn. now rewrite Hp. }
  assert (Hint : some_chars is_digit (String c r) = true).
  { now rewrite Hsome. }
  assert (Halpha : some_chars is_alpha_hex (String c r) = false).
  { apply Hnone. now apply digit_not_alpha_hex. }
  digit_cases c Hc;
    cbv beta iota zeta;
    cbn [is_empty Web3Utils.is_integer_text BN.of_string orb andb negb];
    rewrite Hint, Halpha; cbn [orb andb negb]; now rewrite Z.mul_1_r.
Qed.

Lemma toBN_digits (s : string) :
  some_chars is_digit s = true ->
  Web3Utils.toBN s = Ok (BN.parse_from 10 0 s).
Proof. intros H. unfold Web3Utils.toBN. now rewrite numberToBN_digits. Qed.

(** Every non-negative integer [Number] is read back by [toBN]. *)
Lemma toBN_number_nonneg (n : Z) : 0 <= n -> Web3Utils.toBN_number n = Ok n.
Proof.
  intros Hn. unfold Web3Utils.toBN_number.
  rewrite toBN_digits by now apply toString_digits.
  now rewrite parse_toString.
Qed.

Lemma of_string_digits (s : string) :
  some_chars is_digit s = true ->
  JsNumber.of_string s = JsNumber.of_Z (BN.parse_from 10 0 s).
Proof.
  intros H. pose proof H as H0.
  unfold some_chars in H0. apply andb_true_iff in H0 as [Hne Hd].
  unfold JsNumber.of_string.
  rewrite (trim_id s (digits_no_space s Hd)).
  destruct s as [|c r]; [discriminate Hne|].
  cbn [all_chars] in Hd. apply andb_true_iff in Hd as [Hc Hr].
  digit_cases c Hc; cbv beta iota zeta; now rewrite H.
Qed.

Lemma round_to_double_bound (n : Z) :
  0 <= n < 2 ^ 1023 -> 0 <= JsNumber.round_to_double n < 2 ^ 1024.
Proof.
  intros [Hn0 Hn]. unfold JsNumber.round_to_double.
  destruct (Z.ltb_spec n (2 ^ 53)) as [Hsmall|Hbig].
  - split; [exact Hn0|].
    apply Z.lt_trans with (2 ^ 53); [exact Hsmall|].
    apply Z.pow_lt_mono_r; lia.
  - assert (Hpos : 0 < n) by (assert (0 < 2 ^ 53) by (apply Z.pow_pos_nonneg; lia); lia).
    assert (Hlog : 53 <= Z.log2 n) by (apply Z.log2_le_pow2; lia).
    assert (Hlog' : Z.log2 n < 1023) by (apply Z.log2_lt_pow2; lia).
    pose proof (Z.log2_spec n Hpos) as [Hlo Hhi].
    set (e := Z.log2 n - 52) in *.
    assert (He : 1 <= e) by (unfold e; lia).
    rewrite Z.shiftr_div_pow2 by lia.
    set (q := n / 2 ^ e).
    assert (H2e : 0 < 2 ^ e) by (apply Z.pow_pos_nonneg; lia).
    assert (Hq : 0 <= q < 2 ^ 53).
    { unfold q. split; [apply Z.div_pos; lia|].
      apply Z.div_lt_upper_bound; [lia|].
      rewrite <- Z.pow_add_r by lia.
      replace (e + 53) with (Z.succ (Z.log2 n)) by (unfold e; lia).
      exact Hhi. }
    match goal with
    | |- context [if ?b then q + 1 else q] => set (q' := if b then q + 1 else q)
    end.
    assert (Hq' : 0 <= q' <= 2 ^ 53) by (unfold q'; destruct (_ || _); lia).
    rewrite Z.shiftl_mul_pow2 by lia.
    split; [apply Z.mul_nonneg_nonneg; lia|].
    apply Z.le_lt_trans with (2 ^ 53 * 2 ^ e); [apply Z.mul_le_mono_nonneg_r; lia|].
    rewrite <- Z.pow_add_r by lia.
    apply Z.pow_lt_mono_r; unfold e; lia.
Qed.

Lemma isFinite_toString (n : Z) :
  0 <= n < 2 ^ 1023 -> JsNumber.isFinite (BN.toString n) = true.
Proof.
  intros Hn. unfold JsNumber.isFinite.
  rewrite of_string_digits by (apply toString_digits; lia).
  rewrite parse_toString by lia.
  unfold JsNumber.of_Z. rewrite Z.abs_eq by lia.
  pose proof (round_to_double_bound n Hn) as [_ Hb].
  destruct (Z.leb_spec (2 ^ 1024) (JsNumber.round_to_double n)); [lia|reflexivity].
Qed.

(** [numberToHex] of the decimal text of [0 <= n] is [0x] and the
    hexadecimal digits of [n]. *)
Lemma numberToHex_toString (n : Z) :
  0 <= n < 2 ^ 1023 ->
  Web3Utils.numberToHex (BN.toString n) = Ok ("0x" ++ BN.toString16 n).
Proof.
  intros Hn. unfold Web3Utils.numberToHex.
  rewrite isFinite_toString by exact Hn. cbn [negb andb].
  rewrite toBN_digits by (apply toString_digits; lia).
  rewrite parse_toString by lia. cbn [bind].
  destruct (Z.ltb_spec n 0); [lia|reflexivity].
Qed.

Lemma toHex_number_nonneg (n : Z) :
  0 <= n < 2 ^ 1023 ->
  Web3Utils.toHex_number n = Ok ("0x" ++ BN.toString16 n).
Proof. apply numberToHex_toString. Qed.

(** A text of decimal digits is an address exactly when it has forty of
    them. *)
Lemma isAddress_digits (check : string -> bool) (s : string) :
  all_chars is_digit s = true ->
  Web3Utils.isAddress check s = (String.length s =? 40)%nat.
Proof.
  intros Hd. unfold Web3Utils.isAddress, Web3Utils.strip_0x_any_case.
  rewrite (digits_no_0x s Hd), (digits_no_0X s Hd). cbn [orb].
  rewrite (all_chars_impl is_digit is_hex s digit_is_hex Hd).
  rewrite (all_chars_impl is_digit (fun c => is_digit c || is_lower_hex c) s)
    by (intros c ->; reflexivity) || exact Hd.
  now destruct (String.length s =? 40)%nat.
Qed.

(** [toHex] of the decimal text of [0 <= n], unless the text has forty
    digits. *)
Lemma toHex_toString (check : string -> bool) (n : Z) :
  0 <= n < 2 ^ 1023 ->
  String.length (BN.toString n) <> 40%nat ->
  Web3Utils.toHex check (BN.toString n) = Ok ("0x" ++ BN.toString16 n).
Proof.
  intros Hn Hlen.
  assert (Hd : all_chars is_digit (BN.toString n) = true)
    by (apply toString_all_digits; lia).
  unfold Web3Utils.toHex.
  rewrite (isAddress_digits check _ Hd).
  destruct (Nat.eqb_spec (String.length (BN.toString n)) 40); [contradiction|].
  rewrite (digits_no_minus _ _ Hd), (digits_no_minus _ _ Hd).
  rewrite (digits_no_0x _ Hd), (digits_no_0X _ Hd). cbn [orb].
  rewrite isFinite_toString by exact Hn. cbn [negb].
  now apply numberToHex_toString.
Qed.

End Web3UtilsFacts.

(** ** Ether and wei *)

Module UnitFacts.
Import JsString JsStringFacts BNFacts Web3UtilsFacts.

Lemma of_string10_digits (s : string) :
  all_chars is_digit s = true -> BN.of_string 10 s = BN.parse_from 10 0 s.
Proof.
  destruct s as [|c r]; [reflexivity|].
  cbn [all_chars]. intros H. apply andb_true_iff in H as [Hc _].
  digit_cases c Hc; reflexivity.
Qed.

Lemma split_char_none (sep : ascii) (s : string) :
  all_chars (fun c => negb (Ascii.eqb c sep)) s = true ->
  split_char sep s = [s].
Proof.
  induction s as [|c s IH]; cbn [split_char all_chars]; [reflexivity|].
  intros H. apply andb_true_iff in H as [Hc Hs].
  destruct (Ascii.eqb c sep); [discriminate Hc|].
  now rewrite IH.
Qed.

Lemma split_char_app (sep : ascii) (a b : string) :
  all_chars (fun c => negb (Ascii.eqb c sep)) a = true ->
  split_char sep (a ++ String sep b) = a :: split_char sep b.
Proof.
  induction a as [|c a IH]; cbn [append split_char all_chars].
  - intros _. now rewrite Ascii.eqb_refl.
  - intros H. apply andb_true_iff in H as [Hc Ha].
    destruct (Ascii.eqb c sep); [discriminate Hc|].
    now rewrite IH.
Qed.

Lemma digit_not_dot (c : ascii) :
  is_digit c = true -> negb (Ascii.eqb c ".") = true.
Proof.
  intros H. destruct (Ascii.eqb_spec c ".") as [->|]; [discriminate H|reflexivity].
Qed.

Lemma digits_no_dot (s : string) :
  all_chars is_digit s = true ->
  all_chars (fun c => negb (Ascii.eqb c ".")) s = true.
Proof. apply all_chars_impl, digit_not_dot. Qed.

Lemma digit_is_decimal (c : ascii) :
  is_digit c = true -> Web3Utils.is_decimal_char c = true.
Proof. unfold Web3Utils.is_decimal_char. now intros ->. Qed.

Lemma decimal_amount_chars (whole fraction : string) :
  all_chars is_digit whole = true ->
  all_chars is_digit fraction = true ->
  all_chars Web3Utils.is_decimal_char (whole ++ String "." fraction) = true.
Proof.
  intros Hw Hf. rewrite all_chars_app. cbn [all_chars].
  rewrite (all_chars_impl is_digit _ whole digit_is_decimal Hw).
  now rewrite (all_chars_impl is_digit _ fraction digit_is_decimal Hf).
Qed.

Lemma or_zero_nonempty (s : string) :
  is_empty s = false -> Web3Utils.or_zero s = s.
Proof. unfold Web3Utils.or_zero. now intros ->. Qed.

(** The first steps of [toWei] on a text that starts with a digit and
    holds digits and points only. *)
Lemma numberToString_decimal (c : ascii) (r : string) :
  is_digit c = true ->
  all_chars Web3Utils.is_decimal_char r = true ->
  Web3Utils.numberToString (String c r) = Ok (String c r).
Proof.
  intros Hc Hr. unfold Web3Utils.numberToString.
  digit_cases c Hc; cbv beta iota zeta; unfold some_chars;
    cbn [is_empty negb andb all_chars]; now rewrite Hr.
Qed.

Lemma toWei_unit_head (baseLength : nat) (c : ascii) (r : string) :
  is_digit c = true ->
  all_chars Web3Utils.is_decimal_char r = true ->
  Web3Utils.toWei_unit baseLength (String c r)
  = match split_char "." (String c r) with
    | _ :: _ :: _ :: _ =>
        Throw ("[ethjs-unit] while converting number " ++ String c r
               ++ " to wei,  too many decimal points")
    | comps =>
        let whole := Web3Utils.or_zero (nth 0 comps EmptyString) in
        let fraction := Web3Utils.or_zero (nth 1 comps EmptyString) in
        if (baseLength <? String.length fraction)%nat then
          Throw ("[ethjs-unit] while converting number " ++ String c r
                 ++ " to wei, too many decimal places")
        else
          Ok (BN.of_string 10 whole * 10 ^ Z.of_nat baseLength
              + BN.of_string 10
                  (fraction
                   ++ repeat_char "0" (baseLength - String.length fraction)))
    end.
Proof.
  intros Hc Hr. unfold Web3Utils.toWei_unit.
  rewrite (numberToString_decimal c r Hc Hr). cbn [bind].
  assert (Hminus : prefix "-" (String c r) = false).
  { cbn [prefix]. destruct (ascii_dec "-" c) as [<-|]; [discriminate Hc|reflexivity]. }
  rewrite Hminus.
  assert (Hdot : String.eqb (String c r) "." = false).
  { cbn [String.eqb]. destruct (Ascii.eqb_spec c ".") as [->|]; [discriminate Hc|reflexivity]. }
  rewrite Hdot.
  destruct (split_char "." (String c r)) as [|p1 [|p2 [|p3 rest]]]; reflexivity.
Qed.

(** [toWei] on a whole amount, for a unit of one decimal or more. *)
Lemma toWei_unit_whole (baseLength : nat) (whole : string) :
  (1 <= baseLength)%nat ->
  some_chars is_digit whole = true ->
  Web3Utils.toWei_unit baseLength whole
  = Ok (BN.parse_from 10 0 whole * 10 ^ Z.of_nat baseLength).
Proof.
  intros Hbase H. unfold some_chars in H. apply andb_true_iff in H as [Hne Hd].
  destruct whole as [|c r]; [discriminate Hne|].
  pose proof Hd as Hd'. cbn [all_chars] in Hd'.
  apply andb_true_iff in Hd' as [Hc Hr].
  rewrite toWei_unit_head;
    [|exact Hc|exact (all_chars_impl is_digit _ r digit_is_decimal Hr)].
  rewrite (split_char_none "." _ (digits_no_dot _ Hd)).
  cbn [nth]. cbv zeta.
  rewrite (or_zero_nonempty (String c r)) by reflexivity.
  change (Web3Utils.or_zero EmptyString) with "0".
  change (String.length "0") with 1%nat.
  destruct baseLength as [|n]; [lia|].
  replace (S n <? 1)%nat with false by (symmetry; apply Nat.ltb_ge; lia).
  rewrite (of_string10_digits _ Hd).
  change ("0" ++ repeat_char "0" (S n - 1))%string
    with (repeat_char "0" (S (S n - 1))).
  rewrite of_string10_digits by (apply all_chars_repeat; reflexivity).
  rewrite parse_from_zeros. f_equal. lia.
Qed.

(** [toWei] on an amount with a fraction that fits the unit. *)
Lemma toWei_unit_decimal (baseLength : nat) (whole fraction : string) :
  some_chars is_digit whole = true ->
  some_chars is_digit fraction = true ->
  (String.length fraction <= baseLength)%nat ->
  Web3Utils.toWei_unit baseLength (whole ++ "." ++ fraction)
  = Ok (Spec.toBaseUnits whole fraction baseLength).
Proof.
  intros Hw Hf Hlen.
  unfold some_chars in Hw, Hf.
  apply andb_true_iff in Hw as [Hwne Hwd], Hf as [Hfne Hfd].
  destruct whole as [|c r]; [discriminate Hwne|].
  pose proof Hwd as Hd'. cbn [all_chars] in Hd'.
  apply andb_true_iff in Hd' as [Hc Hr].
  cbn [append].
  rewrite toWei_unit_head; [|exact Hc|].
  2:{ now apply decimal_amount_chars. }
  change (String c (r ++ String "." fraction))
    with (String c r ++ String "." fraction)%string.
  rewrite (split_char_app "." _ _ (digits_no_dot _ Hwd)).
  rewrite (split_char_none "." _ (digits_no_dot _ Hfd)).
  cbn [nth]. cbv zeta.
  rewrite (or_zero_nonempty (String c r)) by reflexivity.
  rewrite (or_zero_nonempty fraction) by (now apply negb_true_iff).
  replace (baseLength <? String.length fraction)%nat with false
    by (symmetry; apply Nat.ltb_ge; lia).
  rewrite (of_string10_digits _ Hwd).
  rewrite of_string10_digits
    by (rewrite all_chars_app, Hfd; apply all_chars_repeat; reflexivity).
  rewrite parse_from_app, parse_from_zeros, length_repeat_char.
  unfold Spec.toBaseUnits. f_equal. lia.
Qed.



End UnitFacts.

(* ------------------------------------------------------------------ *)
(** * [estimateFees] *)

Section EstimateFees.
Import JsString JsStringFacts BNFacts Web3UtilsFacts UnitFacts.

Variable contracts : ContractLib.t.
Variable network : Web3 -> Node.t.

(** What a native transfer's estimate is made of. *)
Lemma estimateFees_native (w : Wallet) (opts : ISend.t) (d : IEstimate.t) :
  token_asset (ISend.token opts) = None ->
  estimateFees contracts network w opts = Ok d ->
  IEstimate.data d = None /\ IEstimate.to d = ISend.to opts /\
  exists wei, Web3Utils.toWei (ISend.amount opts) = Ok wei
              /\ toHex contracts wei = Ok (IEstimate.value d).
Proof.
  intros Hasset. unfold estimateFees. rewrite Hasset.
  destruct (transactionCount network w (ISend.from opts)) as [count|]; [|discriminate].
  cbn [bind].
  destruct (Web3Utils.toHex_number count) as [nonce|]; [|discriminate].
  cbn [bind].
  destruct (Node.getGasPrice (network (provider w))) as [price|]; [|discriminate].
  cbn [bind].
  destruct (Web3Utils.toWei (ISend.amount opts)) as [wei|] eqn:Hwei;
    [|discriminate].
  cbn [bind].
  destruct (toHex contracts wei) as [value|] eqn:Hvalue; [|discriminate].
  cbn [bind].
  destruct (Node.estimateGas _ _) as [gas|]; [|discriminate].
  cbn [bind]. intros [= <-]. cbn.
  split; [reflexivity|]. split; [reflexivity|].
  exists wei. split; [reflexivity|exact Hvalue].
Qed.

(** What a token transfer's estimate is made of. *)
Lemma estimateFees_token (w : Wallet) (opts : ISend.t) (d : IEstimate.t)
    (token : TokenTypes) :
  token_asset (ISend.token opts) = Some token ->
  estimateFees contracts network w opts = Ok d ->
  IEstimate.value d = "0x0" /\
  IEstimate.to d = match find_token contracts w token with
                   | Some t => TToken.contractAddress t
                   | None => EmptyString
                   end /\
  exists contract amount arguments,
    Web3Utils.toBN (ISend.amount opts) = Ok amount /\
    ContractLib.encodeTransferArguments contracts contract (ISend.to opts)
      (BN.toString
         (amount * 10 ^ match find_token contracts w token with
                        | Some t => Z.of_nat (TToken.decimals t)
                        | None => 18
                        end)) = Ok arguments /\
    IEstimate.data d
    = Some ("0x" ++ ContractLib.transferSelector contracts contract ++ arguments).
Proof.
  intros Hasset. unfold estimateFees. rewrite Hasset.
  destruct (transactionCount network w (ISend.from opts)) as [count|]; [|discriminate].
  cbn [bind].
  destruct (Web3Utils.toHex_number count) as [nonce|]; [|discriminate].
  cbn [bind].
  destruct (Node.getGasPrice (network (provider w))) as [price|]; [|discriminate].
  cbn [bind].
  destruct (getTokenContract contracts w token _ _) as [contract|]; [|discriminate].
  cbn [bind].
  destruct (Web3Utils.toBN (ISend.amount opts)) as [amount|] eqn:Hamount;
    [|discriminate].
  cbn [bind].
  rewrite !toBN_number_nonneg by (destruct (find_token contracts w token); lia).
  cbn [bind].
  unfold encodeABI_transfer.
  destruct (ContractLib.encodeTransferArguments _ _ _ _) as [arguments|] eqn:Hargs;
    [|discriminate].
  cbn [bind].
  destruct (Node.estimateGas _ _) as [gas|]; [|discriminate].
  cbn [bind]. intros [= <-]. cbn.
  split; [reflexivity|]. split; [reflexivity|].
  exists contract, amount, arguments. auto.
Qed.


End EstimateFees.



(* ------------------------------------------------------------------ *)
(** * Token amounts *)

Module AmountFacts.
Import JsString JsStringFacts BNFacts Web3UtilsFacts UnitFacts.

Import Web3Utils (is_decimal_char).

Lemma decimal_char_cases (c : ascii) :
  is_decimal_char c = true -> is_digit c = true \/ c = "."%char.
Proof.
  unfold is_decimal_char. intros H. apply orb_true_iff in H as [H|H]; [now left|].
  right. now apply Ascii.eqb_eq.
Qed.

Lemma decimal_no_space (s : string) :
  all_chars is_decimal_char s = true ->
  all_chars (fun c => negb (is_space c)) s = true.
Proof.
  apply all_chars_impl. intros c H.
  destruct (decimal_char_cases c H) as [Hd| ->];
    [now apply digit_not_space|reflexivity].
Qed.

Lemma decimal_no_upper (s : string) :
  all_chars is_decimal_char s = true ->
  all_chars (fun c => negb (is_upper c)) s = true.
Proof.
  apply all_chars_impl. intros c H.
  destruct (decimal_char_cases c H) as [Hd| ->];
    [now apply digit_not_upper|reflexivity].
Qed.

Lemma decimal_no_0x (s : string) :
  all_chars is_decimal_char s = true -> prefix "0x" s = false.
Proof.
  destruct s as [|c [|d r]]; cbn [prefix all_chars]; try reflexivity.
  - now destruct (ascii_dec "0" c).
  - intros H. destruct (ascii_dec "0" c); [|reflexivity].
    destruct (ascii_dec "x" d) as [<-|]; [|reflexivity].
    now rewrite andb_false_r in H.
Qed.

Lemma decimal_no_minus (p s : string) :
  all_chars is_decimal_char s = true -> prefix (String "-" p) s = false.
Proof.
  destruct s as [|c r]; cbn [prefix all_chars]; [reflexivity|].
  intros H. destruct (ascii_dec "-" c) as [<-|]; [discriminate H|reflexivity].
Qed.

Lemma all_chars_with (p : ascii -> bool) (a b : string) (x : ascii) :
  p x = false -> all_chars p (a ++ String x b) = false.
Proof.
  intros Hx. rewrite all_chars_app. cbn [all_chars]. rewrite Hx.
  apply andb_false_r.
Qed.

(** [numberToBN] refuses an amount with a decimal point. *)
Lemma numberToBN_fraction (whole fraction : string) :
  some_chars is_digit whole = true ->
  all_chars is_digit fraction = true ->
  Web3Utils.numberToBN (whole ++ "." ++ fraction)
  = Throw Web3Utils.invalid_number_value.
Proof.
  intros Hw Hf. unfold some_chars in Hw. apply andb_true_iff in Hw as [Hne Hwd].
  assert (Hall : all_chars is_decimal_char (whole ++ "." ++ fraction) = true).
  { now apply decimal_amount_chars. }
  assert (Hint : all_chars is_digit (whole ++ "." ++ fraction) = false)
    by (now apply all_chars_with).
  assert (Hhex : all_chars is_hex (whole ++ "." ++ fraction) = false)
    by (now apply all_chars_with).
  assert (Halpha : all_chars is_alpha_hex (whole ++ "." ++ fraction) = false)
    by (now apply all_chars_with).
  unfold Web3Utils.numberToBN.
  rewrite (toLowerCase_id _ (decimal_no_upper _ Hall)).
  rewrite (trim_id _ (decimal_no_space _ Hall)).
  unfold Web3Utils.stripHexPrefix.
  rewrite (decimal_no_0x _ Hall), (decimal_no_minus _ _ Hall).
  destruct whole as [|c r]; [discriminate Hne|].
  cbn [all_chars] in Hwd. apply andb_true_iff in Hwd as [Hc Hr].
  cbn [append] in *.
  digit_cases c Hc;
    cbv beta iota zeta;
    cbn [is_empty Web3Utils.is_integer_text orb andb negb];
    unfold some_chars; rewrite Hint, Hhex, Halpha;
    cbn [is_empty orb andb negb]; reflexivity.
Qed.

End AmountFacts.

Section TokenAmounts.
Import JsString JsStringFacts BNFacts Web3UtilsFacts UnitFacts AmountFacts.

Variable contracts : ContractLib.t.
Variable network : Web3 -> Node.t.

(** C1: [estimateFees] for a token does not convert an amount with a
    fraction: [toBN] refuses the decimal point, and no descriptor is
    returned. *)
Theorem estimateFees_token_rejects_fraction (w : Wallet) (opts : ISend.t)
    (token : TokenTypes) (whole fraction : string) :
  token_asset (ISend.token opts) = Some token ->
  some_chars is_digit whole = true ->
  all_chars is_digit fraction = true ->
  ISend.amount opts = (whole ++ "." ++ fraction)%string ->
  exists e, estimateFees contracts network w opts = Throw e.
Proof.
  intros Hasset Hw Hf Hamount.
  destruct (estimateFees contracts network w opts) as [d|e] eqn:Hd;
    [|now exists e].
  destruct (estimateFees_token contracts network w opts d token Hasset Hd)
    as (_ & _ & _ & amount & _ & HtoBN & _).
  unfold Web3Utils.toBN in HtoBN.
  rewrite Hamount, (numberToBN_fraction whole fraction Hw Hf) in HtoBN.
  discriminate HtoBN.
Qed.

End TokenAmounts.

(** The amount [1.5] of the token USDT, against the fixture. *)
Lemma estimateFees_token_rejects_fraction_witness :
  exists e,
    estimateFees (Fixture.contracts "0") (Fixture.network "0")
      (constructor None)
      {| ISend.from := Fixture.alice; ISend.to := Fixture.bob;
         ISend.amount := "1.5"; ISend.token := Some USDT |} = Throw e.
Proof.
  exact (estimateFees_token_rejects_fraction (Fixture.contracts "0")
           (Fixture.network "0") (constructor None)
           {| ISend.from := Fixture.alice; ISend.to := Fixture.bob;
              ISend.amount := "1.5"; ISend.token := Some USDT |}
           USDT "1" "5" eq_refl eq_refl eq_refl eq_refl).
Defined.

(** C2: a token balance above [2^53] goes through a [Number] and comes
    back rounded: the raw balance [9007199254740993] of a token with six
    decimals is reported as [9007199254.740992], where the exact quotient is
    [9007199254.740993]. *)
Theorem getBalance_token_rounds :
  getBalance (Fixture.contracts "9007199254740993") (Fixture.network "0")
    (constructor None)
    {| IGetBalanceOptions.address := Fixture.alice;
       IGetBalanceOptions.token := Some USDT |}
  = Ok "9007199254.740992"
  /\ Spec.toHumanUnits 9007199254740993 6 = "9007199254.740993".
Proof. split; vm_compute; reflexivity. Qed.

(* ------------------------------------------------------------------ *)
(** * Wallets and addresses *)

Module MnemonicFacts.
Import JsString JsStringFacts.








End MnemonicFacts.

Section KeyClaims.

Variable keys : KeyLib.t.

(** C4: with a mnemonic given and no raw private key, [createWallet]
    does not depend on what [generateMnemonic] would draw: two runs return
    the same wallet, whose keys and address are those of the node derived
    from the mnemonic along the default path. *)
Theorem createWallet_deterministic (m fresh1 fresh2 : string)
    (type : option WalletTypes) :
  JsString.is_empty m = false ->
  let opts := Some {| ICreateWalletOptions.type := type;
                      ICreateWalletOptions.privateKey := None;
                      ICreateWalletOptions.mnemonics := Some m |} in
  createWallet keys fresh1 opts = createWallet keys fresh2 opts
  /\ forall w, createWallet keys fresh1 opts = Ok w ->
       let node := KeyLib.derive keys
                     (KeyLib.fromMasterSeed keys (KeyLib.mnemonicToSeed keys m))
                     DEFAULT_DERIVATION_PATH in
       IWallet.privateKey w = Buffer.toString_hex (KeyLib.privateKey keys node)
       /\ IWallet.publicKey w = Buffer.toString_hex (KeyLib.publicKey keys node)
       /\ exists pub,
            KeyLib.privateToPublic keys (KeyLib.privateKey keys node) = Ok pub
            /\ IWallet.address w
               = "0x" ++ Buffer.toString_hex (KeyLib.publicToAddress keys pub).
Proof.
  intros Hm opts. unfold opts, createWallet.
  cbn [ICreateWalletOptions.mnemonics ICreateWalletOptions.privateKey
       ICreateWalletOptions.type truthy].
  rewrite Hm.
  destruct type as [[| |]|]; (split; [reflexivity|]); try discriminate;
    intros w;
    (destruct (KeyLib.privateToPublic keys _) as [pub|] eqn:Hpub;
     [|discriminate]);
    cbn [bind]; intros [= <-]; cbn;
    (split; [reflexivity|]); (split; [reflexivity|]);
    exists pub; (split; [reflexivity|reflexivity]).
Qed.

(** C5: with a raw private key supplied, the wallet's private key, address
    and checksummed address are those of the raw key, and its public key
    is that of the node derived from the mnemonic. *)
Theorem createWallet_raw_key (fresh raw : string)
    (type : option WalletTypes) (mnemonics : option string) (w : IWallet.t) :
  JsString.is_empty raw = false ->
  createWallet keys fresh
    (Some {| ICreateWalletOptions.type := type;
             ICreateWalletOptions.privateKey := Some raw;
             ICreateWalletOptions.mnemonics := mnemonics |}) = Ok w ->
  let m := match truthy mnemonics with Some m => m | None => fresh end in
  let node := KeyLib.derive keys
                (KeyLib.fromMasterSeed keys (KeyLib.mnemonicToSeed keys m))
                DEFAULT_DERIVATION_PATH in
  IWallet.privateKey w = Buffer.toString_hex (Buffer.from raw)
  /\ IWallet.publicKey w = Buffer.toString_hex (KeyLib.publicKey keys node)
  /\ exists pub,
       KeyLib.privateToPublic keys (Buffer.from raw) = Ok pub
       /\ IWallet.address w
          = "0x" ++ Buffer.toString_hex (KeyLib.publicToAddress keys pub)
       /\ IWallet.checkSumAddress w
          = KeyLib.toChecksumAddress keys
              ("0x" ++ Buffer.toString_hex (KeyLib.publicToAddress keys pub)).
Proof.
  intros Hraw. unfold createWallet.
  cbn [ICreateWalletOptions.mnemonics ICreateWalletOptions.privateKey
       ICreateWalletOptions.type].
  replace (truthy (Some raw)) with (Some raw) by (cbn; now rewrite Hraw).
  destruct type as [[| |]|]; try discriminate;
    (destruct (KeyLib.privateToPublic keys _) as [pub|] eqn:Hpub;
     [|discriminate]);
    cbn [bind]; intros [= <-]; cbn;
    (split; [reflexivity|]); (split; [reflexivity|]);
    exists pub; (split; [reflexivity|split; reflexivity]).
Qed.


End KeyClaims.

(** Two draws of the generator, and a mnemonic of the caller. *)
Lemma createWallet_deterministic_witness :
  createWallet Fixture.keys "first draw"
    (Some {| ICreateWalletOptions.type := None;
             ICreateWalletOptions.privateKey := None;
             ICreateWalletOptions.mnemonics := Some Fixture.twelve_words |})
  = createWallet Fixture.keys "second draw"
      (Some {| ICreateWalletOptions.type := None;
               ICreateWalletOptions.privateKey := None;
               ICreateWalletOptions.mnemonics := Some Fixture.twelve_words |}).
Proof.
  exact (proj1 (createWallet_deterministic Fixture.keys Fixture.twelve_words
                  "first draw" "second draw" None eq_refl)).
Defined.

(** A raw key beside a mnemonic. *)
Lemma createWallet_raw_key_witness :
  exists w,
    createWallet Fixture.keys "draw"
      (Some {| ICreateWalletOptions.type := Some HD;
               ICreateWalletOptions.privateKey := Some "raw key";
               ICreateWalletOptions.mnemonics := Some Fixture.twelve_words |})
    = Ok w
    /\ IWallet.privateKey w = Buffer.toString_hex (Buffer.from "raw key")
    /\ IWallet.publicKey w
       = Buffer.toString_hex
           (KeyLib.publicKey Fixture.keys
              (KeyLib.derive Fixture.keys
                 (KeyLib.fromMasterSeed Fixture.keys
                    (KeyLib.mnemonicToSeed Fixture.keys Fixture.twelve_words))
                 DEFAULT_DERIVATION_PATH)).
Proof.
  eexists. split; [vm_compute; reflexivity|].
  match goal with
  | |- IWallet.privateKey ?w = _ /\ _ =>
      destruct (createWallet_raw_key Fixture.keys "draw" "raw key" (Some HD)
                  (Some Fixture.twelve_words) w eq_refl eq_refl)
        as (Hpriv & Hpub & _)
  end.
  split; [exact Hpriv|exact Hpub].
Defined.


(* ------------------------------------------------------------------ *)
(** * The payment monitor *)

Module MonitorFacts.

(** A run emits what its callbacks emit, in the order of the schedule. *)
Lemma run_emitted (vault : list string) (schedule : list Callback)
    (m m' : Monitor) :
  run vault schedule m = Some m' ->
  emitted m' = (emitted m ++ flat_map (emissions vault) schedule)%list.
Proof.
  revert m. induction schedule as [|cb rest IH]; intros m; cbn [run flat_map].
  - intros [= <-]. now rewrite app_nil_r.
  - destruct cb as [hash|hash response].
    + intros H. rewrite (IH _ H). cbn [on_data emitted emissions].
      now rewrite <- app_assoc.
    + unfold on_timer.
      destruct (take_timer hash (timers m)) as [ts|]; [|discriminate].
      intros H. rewrite (IH _ H). cbn [emitted emissions].
      now rewrite <- app_assoc.
Qed.

Lemma filter_emissions_other (vault : list string) (hash : string)
    (schedule : list Callback) :
  Forall (fun cb => hash_of cb <> hash) schedule ->
  filter (fun e => String.eqb (fst e) hash)
    (flat_map (emissions vault) schedule) = [].
Proof.
  induction 1 as [|cb rest Hcb _ IH]; [reflexivity|].
  cbn [flat_map]. rewrite filter_app, IH, app_nil_r.
  destruct cb as [h|h response]; cbn [emissions hash_of] in *.
  - cbn. now apply String.eqb_neq in Hcb as ->.
  - induction (recheck vault h response) as [|e es IHes]; [reflexivity|].
    cbn. now apply String.eqb_neq in Hcb as ->.
Qed.

Lemma filter_emissions_same (vault : list string) (cb : Callback)
    (hash : string) :
  hash_of cb = hash ->
  filter (fun e => String.eqb (fst e) hash) (emissions vault cb)
  = emissions vault cb.
Proof.
  intros <-. destruct cb as [h|h response]; cbn [emissions hash_of].
  - cbn. now rewrite String.eqb_refl.
  - induction (recheck vault h response) as [|e es IHes]; [reflexivity|].
    cbn. now rewrite String.eqb_refl, IHes.
Qed.

Lemma take_timer_in (hash : string) (ts rest : list Timer) :
  take_timer hash ts = Some rest -> exists t, In t ts /\ captured t = hash.
Proof.
  revert rest. induction ts as [|t ts IH]; intros rest; cbn [take_timer];
    [discriminate|].
  destruct (String.eqb_spec (captured t) hash) as [Heq|Hne].
  - intros _. exists t. split; [now left|exact Heq].
  - destruct (take_timer hash ts) as [rest'|]; [|discriminate].
    intros _. destruct (IH rest' eq_refl) as (t' & Hin & Hc).
    exists t'. split; [now right|exact Hc].
Qed.

End MonitorFacts.

Section MonitorClaims.
Import MonitorFacts.

Variable vault : list string.

(** C7 (as amended): the callback of the timer set for a hash emits
    [UNCONFIRMED] with the error and the hash when the retrieval throws, and
    emits nothing when the retrieval resolves without a transaction. *)
Theorem recheck_failure (hash : string) (m : Monitor) (rest : list Timer) :
  take_timer hash (timers m) = Some rest ->
  (forall e,
     on_timer vault hash (Throw e) m
     = Some {| timers := rest;
               emitted := emitted m
                 ++ [(hash, emit UNCONFIRMED [ArgError e; ArgHash hash])] |})
  /\ on_timer vault hash (Ok None) m
     = Some {| timers := rest; emitted := emitted m |}.
Proof.
  intros Htimer. unfold on_timer. rewrite Htimer. cbn [recheck map].
  split; [reflexivity|]. now rewrite app_nil_r.
Qed.


(** C9: whether a retrieved transaction is a payment is decided by
    comparing its recipient with the watched addresses character by
    character: it brings [NEW_PAYMENT] when the recipient is in the watch
    set as it is written and nothing otherwise, so a recipient that differs
    from the one watched address in letter case only brings nothing. *)
Theorem case_sensitive_watch_set (hash : string) (tx : ITransaction.t)
    (to : string) :
  recipient tx = Some to ->
  (In to vault ->
   recheck vault hash (Ok (Some tx)) = [emit NEW_PAYMENT [ArgTransaction tx]])
  /\ (~ In to vault -> recheck vault hash (Ok (Some tx)) = [])
  /\ (forall watched,
        Spec.same_modulo_case to watched -> to <> watched ->
        recheck [watched] hash (Ok (Some tx)) = []).
Proof.
  intros Hto. cbn [recheck]. rewrite Hto.
  assert (Hincl : forall v, includes v to = true <-> In to v).
  { intros v. unfold includes. rewrite existsb_exists. split.
    - intros (a & Ha & Heq). apply String.eqb_eq in Heq. now subst a.
    - intros Hin. exists to. split; [exact Hin|apply String.eqb_refl]. }
  split; [|split].
  - intros Hin. apply Hincl in Hin. now rewrite Hin.
  - intros Hout. destruct (includes vault to) eqn:Hin; [|reflexivity].
    now apply Hincl in Hin.
  - intros watched _ Hne.
    destruct (includes [watched] to) eqn:Hin; [|reflexivity].
    apply Hincl in Hin. destruct Hin as [->|[]]. now elim Hne.
Qed.

End MonitorClaims.

(** A hash whose retrieval throws, on a monitor with its timer pending. *)
Lemma recheck_failure_witness :
  on_timer ["0xABC"] "h1" (Throw "connection lost")
    (on_data "h1" {| timers := []; emitted := [] |})
  = Some {| timers := [];
            emitted := [("h1", emit DATA [ArgHash "h1"]);
                        ("h1", emit UNCONFIRMED
                                 [ArgError "connection lost"; ArgHash "h1"])] |}.
Proof.
  exact (proj1 (recheck_failure ["0xABC"] "h1"
                  (on_data "h1" {| timers := []; emitted := [] |}) []
                  eq_refl) "connection lost").
Defined.

(** C7: a hash the node does not know.  The retrieval resolves without a
    transaction, and the only emission for the hash is [DATA]. *)
Lemma not_found_emits_nothing :
  exists m,
    subscribe [] [OnData "h1"; OnTimer "h1" (Ok None)] = Some m
    /\ events_of "h1" m = [emit DATA [ArgHash "h1"]].
Proof. eexists. split; reflexivity. Qed.


(** The watch set [0xABC] and a transaction to [0xabc]. *)
Lemma case_sensitive_watch_set_witness :
  Spec.same_modulo_case "0xabc" "0xABC"
  /\ recheck ["0xABC"] "h1" (Ok (Some (Fixture.payment "0xabc"))) = [].
Proof.
  split; [reflexivity|].
  refine (proj2 (proj2 (case_sensitive_watch_set ["0xABC"] "h1"
                          (Fixture.payment "0xabc") "0xabc" eq_refl))
            "0xABC" eq_refl _).
  discriminate.
Defined.

(* ------------------------------------------------------------------ *)
(** * Switching networks *)

Section SetNet.

Variable contracts : ContractLib.t.
Variable network : Web3 -> Node.t.
Variable sign_and_serialize : Signer.

(** C10: [setNet] changes the field [net] and nothing else; after it,
    [send] signs the transaction that a wallet constructed for the new
    network would sign, and broadcasts it as the wallet did before the
    call, through the handle of the network it was constructed for. *)
Theorem setNet_frame (n : NetTypes) (w : Wallet) (opts : IEstimate.t)
    (privKey : string) :
  net (setNet n w) = n
  /\ provider (setNet n w) = provider w
  /\ socketProvider (setNet n w) = socketProvider w
  /\ raw_transaction contracts sign_and_serialize (setNet n w) opts privKey
     = raw_transaction contracts sign_and_serialize (constructor (Some n))
         opts privKey
  /\ send contracts network sign_and_serialize (setNet n w) opts privKey
     = match raw_transaction contracts sign_and_serialize
               (constructor (Some n)) opts privKey with
       | Ok raw => broadcastTransaction network w raw
       | Throw e => Settled (Throw e)
       end.
Proof. repeat split. Qed.

End SetNet.

(* ------------------------------------------------------------------ *)
(** * More on [estimateFees] *)

(** [toHex] of a [Number] that holds a safe integer. *)
Lemma toHex_number_safe (n : Z) :
  0 <= n < 2 ^ 53 ->
  Web3Utils.toHex_number n = Ok ("0x" ++ BN.toString16 n).
Proof.
  intros [Hn0 Hn]. apply Web3UtilsFacts.toHex_number_nonneg.
  split; [exact Hn0|].
  apply Z.lt_trans with (2 ^ 53); [exact Hn|apply Z.pow_lt_mono_r; lia].
Qed.

Section EstimateFeesRuns.
Import JsString JsStringFacts BNFacts Web3UtilsFacts UnitFacts AmountFacts.

Variable contracts : ContractLib.t.
Variable network : Web3 -> Node.t.

(** The last component of a token lookup: the token's decimals, or 18. *)
Lemma toBN_decimals (found : option TToken.t) :
  Web3Utils.toBN_number
    (match found with
     | Some t => Z.of_nat (TToken.decimals t)
     | None => 18
     end)
  = Ok (match found with
        | Some t => Z.of_nat (TToken.decimals t)
        | None => 18
        end).
Proof. apply toBN_number_nonneg. destruct found; lia. Qed.

(** X1: a token estimate for an amount in whole units, when every call
    it makes succeeds: the transfer is encoded for the amount times
    [10^decimals], exactly, and the descriptor is addressed to the token's
    contract with the value [0x0], the hexadecimal count as nonce, the node's
    gas price and the node's gas estimate for the call. *)
Theorem estimateFees_token_whole (w : Wallet) (opts : ISend.t)
    (token : TokenTypes) (t : TToken.t) (count : Z) (price : string)
    (contract : ContractLib.Contract contracts) (arguments : string)
    (gas : Z) :
  token_asset (ISend.token opts) = Some token ->
  find_token contracts w token = Some t ->
  some_chars is_digit (ISend.amount opts) = true ->
  Node.getTransactionCount (network (provider w)) (ISend.from opts) = Ok count ->
  0 <= count < 2 ^ 53 ->
  Node.getGasPrice (network (provider w)) = Ok price ->
  ContractLib.newContract contracts (provider w) token
    (TToken.contractAddress t) (Some (ISend.from opts)) = Ok contract ->
  ContractLib.encodeTransferArguments contracts contract (ISend.to opts)
    (BN.toString (BN.parse_from 10 0 (ISend.amount opts)
                  * 10 ^ Z.of_nat (TToken.decimals t))) = Ok arguments ->
  Node.estimateGas (network (provider w))
    {| GasQuery.nonce := "0x" ++ BN.toString16 count;
       GasQuery.to := TToken.contractAddress t;
       GasQuery.value := None;
       GasQuery.data :=
         Some ("0x" ++ ContractLib.transferSelector contracts contract
               ++ arguments);
       GasQuery.from := ISend.from opts |} = Ok gas ->
  estimateFees contracts network w opts
  = Ok {| IEstimate.nonce := "0x" ++ BN.toString16 count;
          IEstimate.to := TToken.contractAddress t;
          IEstimate.value := "0x0";
          IEstimate.gasLimit := gas;
          IEstimate.gasPrice := price;
          IEstimate.data :=
            Some ("0x" ++ ContractLib.transferSelector contracts contract
                  ++ arguments) |}.
Proof.
  intros Hasset Hfind Hamount Hcount Hrange Hprice Hcontract Hargs Hgas.
  unfold estimateFees, transactionCount, getTokenContract, encodeABI_transfer.
  rewrite Hcount. cbn [bind].
  rewrite (toHex_number_safe count Hrange). cbn [bind].
  rewrite Hprice. cbn [bind].
  rewrite Hasset, Hfind, Hcontract. cbn [bind].
  rewrite (toBN_digits _ Hamount). cbn [bind].
  rewrite (toBN_decimals (Some t)). cbn [bind].
  rewrite (toBN_number_nonneg 10) by lia. cbn [bind].
  rewrite Hargs. cbn [bind].
  rewrite Hgas. reflexivity.
Qed.

(** X2: a token that the registry of the wallet's network does not hold
    is not refused: the contract is built at the empty address, the amount is
    scaled by [10^18], and the descriptor returned is addressed to the empty
    string. *)
Theorem estimateFees_unregistered_token (w : Wallet) (opts : ISend.t)
    (token : TokenTypes) (d : IEstimate.t) :
  token_asset (ISend.token opts) = Some token ->
  find_token contracts w token = None ->
  estimateFees contracts network w opts = Ok d ->
  IEstimate.to d = EmptyString
  /\ exists contract amount arguments,
       ContractLib.newContract contracts (provider w) token EmptyString
         (Some (ISend.from opts)) = Ok contract
       /\ Web3Utils.toBN (ISend.amount opts) = Ok amount
       /\ ContractLib.encodeTransferArguments contracts contract
            (ISend.to opts) (BN.toString (amount * 10 ^ 18)) = Ok arguments
       /\ IEstimate.data d
          = Some ("0x" ++ ContractLib.transferSelector contracts contract
                  ++ arguments).
Proof.
  intros Hasset Hfind. unfold estimateFees. rewrite Hasset, Hfind.
  destruct (transactionCount network w (ISend.from opts)) as [count|];
    [|discriminate].
  cbn [bind].
  destruct (Web3Utils.toHex_number count) as [nonce|]; [|discriminate].
  cbn [bind].
  destruct (Node.getGasPrice (network (provider w))) as [price|]; [|discriminate].
  cbn [bind]. unfold getTokenContract.
  destruct (ContractLib.newContract contracts _ _ _ _) as [contract|] eqn:Hc;
    [|discriminate].
  cbn [bind].
  destruct (Web3Utils.toBN (ISend.amount opts)) as [amount|] eqn:Hamount;
    [|discriminate].
  cbn [bind].
  rewrite !toBN_number_nonneg by lia. cbn [bind].
  unfold encodeABI_transfer.
  destruct (ContractLib.encodeTransferArguments _ _ _ _) as [arguments|] eqn:Hargs;
    [|discriminate].
  cbn [bind].
  destruct (Node.estimateGas _ _) as [gas|]; [|discriminate].
  cbn [bind]. intros [= <-]. cbn.
  split; [reflexivity|].
  exists contract, amount, arguments. auto.
Qed.

(** X3: [estimateFees] rejects with the node's own error when the
    transaction count, the gas price or the gas estimate cannot be had: the
    error of the first call that fails, unchanged. *)
Theorem estimateFees_node_errors (w : Wallet) (opts : ISend.t) (e : JsError) :
  (Node.getTransactionCount (network (provider w)) (ISend.from opts) = Throw e ->
   estimateFees contracts network w opts = Throw e)
  /\ (forall count,
        Node.getTransactionCount (network (provider w)) (ISend.from opts)
        = Ok count ->
        0 <= count < 2 ^ 53 ->
        Node.getGasPrice (network (provider w)) = Throw e ->
        estimateFees contracts network w opts = Throw e)
  /\ (forall count price whole,
        Node.getTransactionCount (network (provider w)) (ISend.from opts)
        = Ok count ->
        0 <= count < 2 ^ 53 ->
        Node.getGasPrice (network (provider w)) = Ok price ->
        token_asset (ISend.token opts) = None ->
        ISend.amount opts = whole ->
        some_chars is_digit whole = true ->
        BN.parse_from 10 0 whole * 10 ^ 18 < 2 ^ 1023 ->
        String.length (BN.toString (BN.parse_from 10 0 whole * 10 ^ 18))
        <> 40%nat ->
        Node.estimateGas (network (provider w))
          {| GasQuery.nonce := "0x" ++ BN.toString16 count;
             GasQuery.to := ISend.to opts;
             GasQuery.value :=
               Some ("0x" ++ BN.toString16
                               (BN.parse_from 10 0 whole * 10 ^ 18));
             GasQuery.data := None;
             GasQuery.from := ISend.from opts |} = Throw e ->
        estimateFees contracts network w opts = Throw e).
Proof.
  split; [|split].
  - intros Hcount. unfold estimateFees, transactionCount. now rewrite Hcount.
  - intros count Hcount Hrange Hprice.
    unfold estimateFees, transactionCount. rewrite Hcount. cbn [bind].
    rewrite (toHex_number_safe count Hrange). cbn [bind].
    now rewrite Hprice.
  - intros count price whole Hcount Hrange Hprice Hasset Hamount Hw Hbound Hlen
      Hgas.
    unfold estimateFees, transactionCount. rewrite Hcount. cbn [bind].
    rewrite (toHex_number_safe count Hrange). cbn [bind].
    rewrite Hprice. cbn [bind]. rewrite Hasset, Hamount.
    unfold Web3Utils.toWei.
    rewrite (toWei_unit_whole 18 whole) by (lia || exact Hw). cbn [bind].
    change (10 ^ Z.of_nat 18) with (10 ^ 18).
    unfold toHex. rewrite toHex_toString; [| |exact Hlen].
    + cbn [bind]. now rewrite Hgas.
    + split; [|exact Hbound].
      unfold some_chars in Hw. apply andb_true_iff in Hw as [_ Hw].
      pose proof (parse_from_nonneg whole 0 Hw (Z.le_refl 0)). lia.
Qed.

(** X4: a native amount with more than eighteen decimals is refused, not
    truncated: [estimateFees] rejects with the error of [toWei]. *)
Theorem estimateFees_too_many_decimals (w : Wallet) (opts : ISend.t)
    (count : Z) (price whole fraction : string) :
  Node.getTransactionCount (network (provider w)) (ISend.from opts) = Ok count ->
  0 <= count < 2 ^ 53 ->
  Node.getGasPrice (network (provider w)) = Ok price ->
  token_asset (ISend.token opts) = None ->
  ISend.amount opts = (whole ++ "." ++ fraction)%string ->
  some_chars is_digit whole = true ->
  all_chars is_digit fraction = true ->
  (18 < String.length fraction)%nat ->
  estimateFees contracts network w opts
  = Throw ("[ethjs-unit] while converting number " ++ ISend.amount opts
           ++ " to wei, too many decimal places").
Proof.
  intros Hcount Hrange Hprice Hasset Hamount Hw Hf Hlen.
  unfold estimateFees, transactionCount. rewrite Hcount. cbn [bind].
  rewrite (toHex_number_safe count Hrange). cbn [bind].
  rewrite Hprice. cbn [bind]. rewrite Hasset, Hamount.
  unfold Web3Utils.toWei.
  unfold some_chars in Hw. apply andb_true_iff in Hw as [Hwne Hwd].
  destruct whole as [|c r]; [discriminate Hwne|].
  pose proof Hwd as Hd'. cbn [all_chars] in Hd'.
  apply andb_true_iff in Hd' as [Hc Hr].
  cbn [append].
  rewrite toWei_unit_head; [|exact Hc|now apply decimal_amount_chars].
  change (String c (r ++ String "." fraction))
    with (String c r ++ String "." fraction)%string.
  rewrite (split_char_app "." _ _ (digits_no_dot _ Hwd)).
  rewrite (split_char_none "." _ (digits_no_dot _ Hf)).
  cbn [nth]. cbv zeta.
  assert (Hfne : is_empty fraction = false) by (destruct fraction; [cbn in Hlen; lia|reflexivity]).
  rewrite (or_zero_nonempty fraction Hfne).
  replace (18 <? String.length fraction)%nat with true
    by (symmetry; apply Nat.ltb_lt; lia).
  reflexivity.
Qed.

End EstimateFeesRuns.

(** Fifteen units of USDT, against the fixture. *)
Lemma estimateFees_token_whole_witness :
  estimateFees (Fixture.contracts "0") (Fixture.network "0")
    (constructor None)
    {| ISend.from := Fixture.alice; ISend.to := Fixture.bob;
       ISend.amount := "15"; ISend.token := Some USDT |}
  = Ok {| IEstimate.nonce := "0x7";
          IEstimate.to := "0xdac17f958d2ee523a2206206994597c13d831ec7";
          IEstimate.value := "0x0";
          IEstimate.gasLimit := 21000;
          IEstimate.gasPrice := "20000000000";
          IEstimate.data :=
            Some "0xa9059cbb0000000000000000000000000000000000000000000000000000000000000b0b0000000000000000000000000000000000000000000000000000000000e4e1c0" |}.
Proof.
  refine (estimateFees_token_whole (Fixture.contracts "0")
            (Fixture.network "0") (constructor None)
            {| ISend.from := Fixture.alice; ISend.to := Fixture.bob;
               ISend.amount := "15"; ISend.token := Some USDT |}
            USDT Fixture.usdt 7 "20000000000"
            (Fixture.mkContract USDT
               "0xdac17f958d2ee523a2206206994597c13d831ec7"
               (Some Fixture.alice))
            "0000000000000000000000000000000000000000000000000000000000000b0b0000000000000000000000000000000000000000000000000000000000e4e1c0"
            21000 eq_refl eq_refl eq_refl eq_refl _ eq_refl eq_refl eq_refl
            eq_refl).
  split; [lia|reflexivity].
Defined.

(** A token outside the fixture's registry. *)
Lemma estimateFees_unregistered_token_witness :
  exists d,
    estimateFees (Fixture.contracts "0") (Fixture.network "0")
      (constructor None)
      {| ISend.from := Fixture.alice; ISend.to := Fixture.bob;
         ISend.amount := "2"; ISend.token := Some DAI |} = Ok d
    /\ IEstimate.to d = EmptyString.
Proof.
  eexists. split; [vm_compute; reflexivity|].
  match goal with
  | |- IEstimate.to ?d = _ =>
      exact (proj1 (estimateFees_unregistered_token (Fixture.contracts "0")
                      (Fixture.network "0") (constructor None)
                      {| ISend.from := Fixture.alice; ISend.to := Fixture.bob;
                         ISend.amount := "2"; ISend.token := Some DAI |}
                      DAI d eq_refl eq_refl eq_refl))
  end.
Defined.

(** A node that refuses to estimate the gas. *)
Lemma estimateFees_node_errors_witness :
  estimateFees (Fixture.contracts "0")
    (Fixture.network_refusing_gas "insufficient funds")
    (constructor None)
    {| ISend.from := Fixture.alice; ISend.to := Fixture.bob;
       ISend.amount := "2"; ISend.token := None |}
  = Throw "insufficient funds".
Proof.
  refine (proj2 (proj2 (estimateFees_node_errors (Fixture.contracts "0")
                          (Fixture.network_refusing_gas "insufficient funds")
                          (constructor None)
                          {| ISend.from := Fixture.alice;
                             ISend.to := Fixture.bob;
                             ISend.amount := "2"; ISend.token := None |}
                          "insufficient funds"))
            7 "20000000000" "2" eq_refl _ eq_refl eq_refl eq_refl eq_refl _ _
            eq_refl).
  - split; [lia|reflexivity].
  - reflexivity.
  - vm_compute. discriminate.
Defined.

(** Nineteen decimals. *)
Lemma estimateFees_too_many_decimals_witness :
  estimateFees (Fixture.contracts "0") (Fixture.network "0")
    (constructor None)
    {| ISend.from := Fixture.alice; ISend.to := Fixture.bob;
       ISend.amount := "0.0000000000000000001"; ISend.token := None |}
  = Throw "[ethjs-unit] while converting number 0.0000000000000000001 to wei, too many decimal places".
Proof.
  refine (estimateFees_too_many_decimals (Fixture.contracts "0")
            (Fixture.network "0") (constructor None)
            {| ISend.from := Fixture.alice; ISend.to := Fixture.bob;
               ISend.amount := "0.0000000000000000001"; ISend.token := None |}
            7 "20000000000" "0" "0000000000000000001"
            eq_refl _ eq_refl eq_refl eq_refl eq_refl eq_refl _).
  - split; [lia|reflexivity].
  - cbn. lia.
Defined.

(* ------------------------------------------------------------------ *)
(** * More on wallets and addresses *)

Module PhraseFacts.
Import JsString JsStringFacts MnemonicFacts.









End PhraseFacts.

Module BufferFacts.

Lemma length_toString_hex (b : Buffer.t) :
  String.length (Buffer.toString_hex b) = (2 * List.length b)%nat.
Proof.
  induction b as [|x b IH]; [reflexivity|].
  cbn [Buffer.toString_hex List.length].
  unfold Web3Utils.hex_of_code. cbn [append String.length]. lia.
Qed.

Lemma from_hex_byte (x : Byte.byte) (rest : string) :
  Buffer.from_hex (Web3Utils.hex_of_code (Byte.to_N x) ++ rest)
  = x :: Buffer.from_hex rest.
Proof. destruct x; reflexivity. Qed.

Lemma from_hex_toString_hex (b : Buffer.t) :
  Buffer.from_hex (Buffer.toString_hex b) = b.
Proof.
  induction b as [|x b IH]; [reflexivity|].
  cbn [Buffer.toString_hex]. now rewrite from_hex_byte, IH.
Qed.

Lemma toString_hex_from (s : string) :
  Buffer.toString_hex (Buffer.from s) = Web3Utils.hex_of_chars s.
Proof.
  induction s as [|c s IH]; [reflexivity|].
  change (Buffer.toString_hex (Buffer.from (String c s)))
    with (Web3Utils.hex_of_code (Byte.to_N (byte_of_ascii c))
          ++ Buffer.toString_hex (Buffer.from s))%string.
  rewrite IH.
  change (Web3Utils.hex_of_chars (String c s))
    with (Web3Utils.hex_of_code (JsString.code c)
          ++ Web3Utils.hex_of_chars s)%string.
  f_equal. destruct c as [[] [] [] [] [] [] [] []]; reflexivity.
Qed.

Lemma length_from (s : string) :
  List.length (Buffer.from s) = String.length s.
Proof.
  unfold Buffer.from. induction s as [|c s IH]; [reflexivity|].
  change (List.length (list_byte_of_string (String c s)))
    with (S (List.length (list_byte_of_string s))).
  now rewrite IH.
Qed.

End BufferFacts.

Section KeyRuns.
Import PhraseFacts BufferFacts.

Variable keys : KeyLib.t.

(** X5: the wallet type decides one thing only.  [MULTISIG] is refused
    whatever else is given, and a wallet asked for as [HD], as [DEFAULT] or
    with no type is the same wallet. *)
Theorem createWallet_types (fresh : string) (privateKey mnemonics : option string) :
  createWallet keys fresh
    (Some {| ICreateWalletOptions.type := Some MULTISIG;
             ICreateWalletOptions.privateKey := privateKey;
             ICreateWalletOptions.mnemonics := mnemonics |})
  = Throw "Wallet type not supported yet."
  /\ createWallet keys fresh
       (Some {| ICreateWalletOptions.type := Some HD;
                ICreateWalletOptions.privateKey := privateKey;
                ICreateWalletOptions.mnemonics := mnemonics |})
     = createWallet keys fresh
         (Some {| ICreateWalletOptions.type := None;
                  ICreateWalletOptions.privateKey := privateKey;
                  ICreateWalletOptions.mnemonics := mnemonics |})
  /\ createWallet keys fresh
       (Some {| ICreateWalletOptions.type := Some DEFAULT;
                ICreateWalletOptions.privateKey := privateKey;
                ICreateWalletOptions.mnemonics := mnemonics |})
     = createWallet keys fresh
         (Some {| ICreateWalletOptions.type := None;
                  ICreateWalletOptions.privateKey := privateKey;
                  ICreateWalletOptions.mnemonics := mnemonics |}).
Proof. repeat split. Qed.

(** X6: an empty mnemonic and an empty raw key count as not given: the
    wallet is the one of a call without options, made from the generated
    mnemonic, which it reports. *)
Theorem createWallet_empty_options (fresh : string) (w : IWallet.t) :
  createWallet keys fresh
    (Some {| ICreateWalletOptions.type := None;
             ICreateWalletOptions.privateKey := Some EmptyString;
             ICreateWalletOptions.mnemonics := Some EmptyString |}) = Ok w ->
  createWallet keys fresh None = Ok w
  /\ IWallet.mnemonics w = Some fresh
  /\ IWallet.privateKey w
     = Buffer.toString_hex
         (KeyLib.privateKey keys
            (KeyLib.derive keys
               (KeyLib.fromMasterSeed keys (KeyLib.mnemonicToSeed keys fresh))
               DEFAULT_DERIVATION_PATH)).
Proof.
  unfold createWallet.
  cbn [ICreateWalletOptions.mnemonics ICreateWalletOptions.privateKey
       ICreateWalletOptions.type truthy JsString.is_empty].
  destruct (KeyLib.privateToPublic keys _) as [pub|]; [|discriminate].
  cbn [bind]. intros [= <-]. cbn. repeat split.
Qed.

(** X7: a raw private key is read as text, not as hexadecimal digits: the
    private key reported is the hexadecimal code of each character of the
    key supplied, twice as long as that key. *)
Theorem createWallet_raw_key_is_text (fresh raw : string)
    (type : option WalletTypes) (mnemonics : option string) (w : IWallet.t) :
  JsString.is_empty raw = false ->
  createWallet keys fresh
    (Some {| ICreateWalletOptions.type := type;
             ICreateWalletOptions.privateKey := Some raw;
             ICreateWalletOptions.mnemonics := mnemonics |}) = Ok w ->
  IWallet.privateKey w = Web3Utils.hex_of_chars raw
  /\ String.length (IWallet.privateKey w) = (2 * String.length raw)%nat.
Proof.
  intros Hraw. unfold createWallet.
  cbn [ICreateWalletOptions.mnemonics ICreateWalletOptions.privateKey
       ICreateWalletOptions.type].
  replace (truthy (Some raw)) with (Some raw) by (cbn; now rewrite Hraw).
  destruct type as [[| |]|]; try discriminate;
    (destruct (KeyLib.privateToPublic keys _) as [pub|]; [|discriminate]);
    cbn [bind]; intros [= <-]; cbn [IWallet.privateKey];
    (split; [apply toString_hex_from|]);
    now rewrite length_toString_hex, length_from.
Qed.


(** X9: the address [generateAddress] gives at index 0 is the address
    [createWallet] gives for the same mnemonic; the private keys reported
    beside it are the master node's in one and the address node's in the
    other. *)
Theorem generateAddress_zero_is_createWallet (phrase fresh : string)
    (type : option WalletTypes) (a w : IWallet.t) :
  JsString.is_empty phrase = false ->
  generateAddress keys phrase (Some 0%N) = Ok a ->
  createWallet keys fresh
    (Some {| ICreateWalletOptions.type := type;
             ICreateWalletOptions.privateKey := None;
             ICreateWalletOptions.mnemonics := Some phrase |}) = Ok w ->
  IWallet.address a = IWallet.address w
  /\ IWallet.checkSumAddress a = IWallet.checkSumAddress w
  /\ IWallet.privateKey a
     = Buffer.toString_hex
         (KeyLib.privateKey keys
            (KeyLib.fromMasterSeed keys (KeyLib.mnemonicToSeed keys phrase)))
  /\ IWallet.privateKey w
     = Buffer.toString_hex
         (KeyLib.privateKey keys
            (KeyLib.derive keys
               (KeyLib.fromMasterSeed keys (KeyLib.mnemonicToSeed keys phrase))
               DEFAULT_DERIVATION_PATH)).
Proof.
  intros Hphrase. unfold generateAddress, createWallet.
  cbn [ICreateWalletOptions.mnemonics ICreateWalletOptions.privateKey
       ICreateWalletOptions.type truthy].
  rewrite Hphrase.
  change (derivation_path 0) with DEFAULT_DERIVATION_PATH.
  destruct (negb (isValidMnemonic phrase)); [discriminate|].
  destruct type as [[| |]|]; try discriminate;
    (destruct (KeyLib.privateToPublic keys _) as [pub|]; [|discriminate]);
    cbn [bind]; intros [= <-] [= <-]; cbn; repeat split.
Qed.

(** X10: the hexadecimal text of a buffer decodes to the buffer, so the
    private key that [createWallet] reports is, in [send], the key it was
    made from. *)
Theorem private_key_round_trip (fresh : string)
    (opts : option ICreateWalletOptions.t) (w : IWallet.t) (b : Buffer.t) :
  Buffer.from_hex (Buffer.toString_hex b) = b
  /\ (createWallet keys fresh opts = Ok w ->
      exists key pub,
        KeyLib.privateToPublic keys key = Ok pub
        /\ IWallet.address w
           = "0x" ++ Buffer.toString_hex (KeyLib.publicToAddress keys pub)
        /\ Buffer.from_hex (IWallet.privateKey w) = key).
Proof.
  split; [apply from_hex_toString_hex|].
  unfold createWallet.
  destruct opts as [[[[| |]|] privateKey mnemonics]|]; try discriminate;
    cbn [ICreateWalletOptions.mnemonics ICreateWalletOptions.privateKey];
    match goal with
    | |- context [KeyLib.privateToPublic keys ?k] =>
        destruct (KeyLib.privateToPublic keys k) as [pub|] eqn:Hpub;
        [|discriminate];
        cbn [bind]; intros [= <-]; cbn [IWallet.address IWallet.privateKey];
        exists k, pub; repeat split;
        [exact Hpub|apply from_hex_toString_hex]
    end.
Qed.

End KeyRuns.

(** The raw key [ab]. *)
Lemma createWallet_raw_key_is_text_witness :
  exists w,
    createWallet Fixture.keys "draw"
      (Some {| ICreateWalletOptions.type := None;
               ICreateWalletOptions.privateKey := Some "ab";
               ICreateWalletOptions.mnemonics := None |}) = Ok w
    /\ IWallet.privateKey w = "6162".
Proof.
  eexists. split; [vm_compute; reflexivity|].
  match goal with
  | |- IWallet.privateKey ?w = _ =>
      exact (proj1 (createWallet_raw_key_is_text Fixture.keys "draw" "ab"
                      None None w eq_refl eq_refl))
  end.
Defined.

(** No mnemonic and no key, both given as empty strings. *)
Lemma createWallet_empty_options_witness :
  exists w,
    createWallet Fixture.keys "draw" None = Ok w
    /\ IWallet.mnemonics w = Some "draw".
Proof.
  eexists.
  assert (Hrun : createWallet Fixture.keys "draw"
                   (Some {| ICreateWalletOptions.type := None;
                            ICreateWalletOptions.privateKey := Some EmptyString;
                            ICreateWalletOptions.mnemonics := Some EmptyString |})
                 = Ok _) by (vm_compute; reflexivity).
  destruct (createWallet_empty_options Fixture.keys "draw" _ Hrun)
    as (Hnone & Hm & _).
  split; [exact Hnone|exact Hm].
Defined.


(** The fixture's phrase at index 0. *)
Lemma generateAddress_zero_is_createWallet_witness :
  exists a w,
    generateAddress Fixture.keys Fixture.twelve_words (Some 0%N) = Ok a
    /\ createWallet Fixture.keys "draw"
         (Some {| ICreateWalletOptions.type := None;
                  ICreateWalletOptions.privateKey := None;
                  ICreateWalletOptions.mnemonics := Some Fixture.twelve_words |})
       = Ok w
    /\ IWallet.address a = IWallet.address w.
Proof.
  eexists. eexists.
  split; [vm_compute; reflexivity|].
  split; [vm_compute; reflexivity|].
  match goal with
  | |- IWallet.address ?a = IWallet.address ?w =>
      exact (proj1 (generateAddress_zero_is_createWallet Fixture.keys
                      Fixture.twelve_words "draw" None a w
                      eq_refl eq_refl eq_refl))
  end.
Defined.

(* ------------------------------------------------------------------ *)
(** * Balances *)

Module DigitsFacts.
Import JsString JsStringFacts BNFacts Web3UtilsFacts UnitFacts.

Lemma parse_from_shift (b : string) (acc : Z) :
  BN.parse_from 10 acc b
  = acc * 10 ^ Z.of_nat (String.length b) + BN.parse_from 10 0 b.
Proof.
  change b with (EmptyString ++ b)%string at 1.
  now rewrite parse_from_app.
Qed.

(** The decimal text of a positive number does not start with a zero. *)
Lemma to_uint_head (p : positive) :
  match Pos.to_uint p with
  | Decimal.Nil | Decimal.D0 _ => False
  | _ => True
  end.
Proof.
  pose proof (DecimalPos.Unsigned.to_of (Pos.to_uint p)) as Hnorm.
  rewrite DecimalPos.Unsigned.of_to in Hnorm. cbn [N.to_uint] in Hnorm.
  pose proof (DecimalPos.Unsigned.to_uint_nonzero p) as Hnz.
  pose proof (DecimalPos.Unsigned.to_uint_nonnil p) as Hnn.
  destruct (Pos.to_uint p) as [|d'| | | | | | | | |]; try exact I.
  - now apply Hnn.
  - rewrite DecimalFacts.unorm_D0 in Hnorm.
    destruct d' as [|? | | | | | | | | |] eqn:E;
      try (pose proof (DecimalFacts.nb_digits_unorm d') as Hlen;
           rewrite E in Hlen; rewrite <- Hnorm in Hlen;
           specialize (Hlen ltac:(discriminate));
           cbn [Decimal.nb_digits] in Hlen; lia).
    now apply Hnz.
Qed.

Lemma head_digit_value (d : Decimal.uint) :
  match d with
  | Decimal.Nil | Decimal.D0 _ => False
  | _ => True
  end ->
  exists c r,
    DecimalString.NilEmpty.string_of_uint d = String c r
    /\ 1 <= BN.digit_value c
    /\ all_chars is_digit r = true.
Proof.
  destruct d; try contradiction; intros _;
    cbn [DecimalString.NilEmpty.string_of_uint];
    eexists; eexists; (split; [reflexivity|]);
    (split; [vm_compute; discriminate|apply string_of_uint_digits]).
Qed.

(** A number below [10^n] is written with [n] digits at most. *)
Lemma length_toString_bound (m : Z) (n : nat) :
  0 <= m < 10 ^ Z.of_nat n -> (1 <= n)%nat ->
  (String.length (BN.toString m) <= n)%nat.
Proof.
  intros [Hm0 Hm] Hn.
  pose proof (parse_toString m Hm0) as Hparse.
  unfold BN.toString in *. destruct (Z.ltb_spec m 0); [lia|].
  destruct (Z.abs_N m) as [|p] eqn:Hp.
  - cbn. lia.
  - cbn [N.to_uint] in *.
    destruct (head_digit_value _ (to_uint_head p)) as (c & r & Hs & Hc & Hr).
    rewrite Hs in *. cbn [BN.parse_from String.length] in *.
    rewrite parse_from_shift in Hparse.
    pose proof (parse_from_nonneg r 0 Hr (Z.le_refl 0)) as Hr0.
    assert (Hpow : 0 < 10 ^ Z.of_nat (String.length r))
      by (apply Z.pow_pos_nonneg; lia).
    assert (Hlow : 10 ^ Z.of_nat (String.length r) <= m) by nia.
    assert (Hlt : 10 ^ Z.of_nat (String.length r) < 10 ^ Z.of_nat n) by lia.
    apply Z.pow_lt_mono_r_iff in Hlt; lia.
Qed.

Lemma reverse_repeat (c : ascii) (n : nat) :
  reverse (repeat_char c n) = repeat_char c n.
Proof.
  induction n as [|n IH]; [reflexivity|].
  cbn [repeat_char]. rewrite reverse_cons, IH.
  clear IH. induction n as [|n IH]; [reflexivity|].
  cbn [repeat_char append]. now rewrite IH.
Qed.

(** The zeros [drop_zeros] drops, and what it leaves. *)
Lemma drop_zeros_split (s : string) :
  exists k,
    s = (repeat_char "0" k ++ BigNumber.drop_zeros s)%string
    /\ match BigNumber.drop_zeros s with
       | EmptyString => True
       | String c _ => c <> "0"%char
       end.
Proof.
  induction s as [|c s (k & Hs & Hhead)].
  - now exists O.
  - destruct (Ascii.eqb_spec c "0") as [->|Hc].
    + exists (S k). cbn [BigNumber.drop_zeros repeat_char append].
      split; [now rewrite <- Hs|exact Hhead].
    + exists O. 
      assert (Hd : BigNumber.drop_zeros (String c s) = String c s).
      { destruct c as [[] [] [] [] [] [] [] []]; try reflexivity.
        now elim Hc. }
      rewrite Hd. now split.
Qed.

(** [strip_trailing_zeros]: the digits up to the last one that is not a
    zero, followed by the zeros left out. *)
Lemma strip_trailing_zeros_split (digits : string) :
  exists kept k,
    digits = (kept ++ repeat_char "0" k)%string
    /\ Web3Utils.strip_trailing_zeros digits = Web3Utils.or_zero kept
    /\ String.eqb kept "0" = false.
Proof.
  destruct (drop_zeros_split (reverse digits)) as (k & Hs & Hhead).
  exists (reverse (BigNumber.drop_zeros (reverse digits))), k.
  split; [|split].
  - rewrite <- (reverse_involutive digits) at 1. rewrite Hs at 1.
    now rewrite reverse_app, reverse_repeat.
  - reflexivity.
  - destruct (BigNumber.drop_zeros (reverse digits)) as [|c r];
      [reflexivity|].
    rewrite reverse_cons. apply String.eqb_neq. intros Heq.
    destruct (reverse r) as [|x [|y t]]; cbn [append] in Heq.
    + injection Heq as Heq. now apply Hhead.
    + discriminate Heq.
    + discriminate Heq.
Qed.

(** [fromWei] and back: the text [fromWei] writes for an amount is read
    by [toWei] as that amount. *)
Lemma toWei_fromWei_unit (baseLength : nat) (wei : Z) :
  (1 <= baseLength)%nat -> 0 <= wei ->
  Web3Utils.toWei_unit baseLength (Web3Utils.fromWei_unit baseLength wei)
  = Ok wei.
Proof.
  intros Hbase Hwei. unfold Web3Utils.fromWei_unit.
  destruct (Z.ltb_spec wei 0); [lia|].
  rewrite Z.abs_eq by lia.
  set (base := 10 ^ Z.of_nat baseLength).
  assert (Hbase0 : 0 < base) by (apply Z.pow_pos_nonneg; lia).
  pose proof (Z.mod_pos_bound wei base Hbase0) as Hmod.
  pose proof (Z.div_pos wei base Hwei Hbase0) as Hdiv.
  pose proof (Z.div_mod wei base ltac:(lia)) as Hdm.
  set (digits := BN.toString (wei mod base)).
  set (padded := (repeat_char "0" (baseLength - String.length digits)
                  ++ digits)%string).
  assert (Hlen : (String.length digits <= baseLength)%nat)
    by (apply length_toString_bound; [exact Hmod|exact Hbase]).
  assert (Hpadlen : String.length padded = baseLength).
  { unfold padded. rewrite length_append, length_repeat_char. lia. }
  assert (Hpaddigits : all_chars is_digit padded = true).
  { unfold padded. rewrite all_chars_app, all_chars_repeat by reflexivity.
    apply toString_all_digits. lia. }
  assert (Hpadval : BN.parse_from 10 0 padded = wei mod base).
  { unfold padded. rewrite parse_from_app, parse_from_zeros.
    unfold digits. rewrite parse_toString; lia. }
  destruct (strip_trailing_zeros_split padded) as (kept & k & Hsplit & Hstrip & Hkept).
  rewrite Hstrip.
  assert (Hkd : all_chars is_digit kept = true).
  { rewrite Hsplit, all_chars_app in Hpaddigits.
    now apply andb_true_iff in Hpaddigits. }
  assert (Hk : (String.length kept + k = baseLength)%nat).
  { rewrite <- Hpadlen, Hsplit, length_append, length_repeat_char. lia. }
  assert (Hval : BN.parse_from 10 0 kept * 10 ^ Z.of_nat k = wei mod base).
  { rewrite <- Hpadval, Hsplit, parse_from_app, parse_from_zeros,
      length_repeat_char. lia. }
  assert (Hwhole : some_chars is_digit (BN.toString (wei / base)) = true)
    by (apply toString_digits; lia).
  destruct kept as [|c r].
  - change (Web3Utils.or_zero EmptyString) with "0".
    change (String.eqb "0" "0") with true. cbv iota.
    rewrite append_nil_r.
    rewrite toWei_unit_whole by assumption.
    rewrite parse_toString by lia. fold base.
    cbn [BN.parse_from] in Hval. f_equal. lia.
  - rewrite or_zero_nonempty by reflexivity. rewrite Hkept.
    change (BN.toString (wei / base) ++ String "." (String c r))%string
      with (BN.toString (wei / base) ++ "." ++ String c r)%string.
    rewrite toWei_unit_decimal; [| exact Hwhole | | lia].
    2:{ unfold some_chars. now rewrite Hkd. }
    unfold Spec.toBaseUnits. rewrite parse_toString by lia. fold base.
    replace (baseLength - String.length (String c r))%nat with k by lia.
    f_equal. lia.
Qed.

End DigitsFacts.

Module NumberFacts.
Import JsString JsStringFacts BNFacts Web3UtilsFacts.

Lemma round_to_double_small (n : Z) :
  n < 2 ^ 53 -> JsNumber.round_to_double n = n.
Proof.
  intros H. unfold JsNumber.round_to_double.
  destruct (Z.ltb_spec n (2 ^ 53)); [reflexivity|lia].
Qed.

(** Rounding does not take an integer from [2^53] on below [2^53]. *)
Lemma round_to_double_large (n : Z) :
  2 ^ 53 <= n -> 2 ^ 53 <= JsNumber.round_to_double n.
Proof.
  intros Hbig. unfold JsNumber.round_to_double.
  destruct (Z.ltb_spec n (2 ^ 53)) as [Hsmall|_]; [lia|].
  assert (Hpos : 0 < n) by (assert (0 < 2 ^ 53) by (apply Z.pow_pos_nonneg; lia); lia).
  assert (Hlog : 53 <= Z.log2 n) by (apply Z.log2_le_pow2; lia).
  pose proof (Z.log2_spec n Hpos) as [Hlo Hhi].
  set (e := Z.log2 n - 52) in *.
  assert (He : 1 <= e) by (unfold e; lia).
  rewrite Z.shiftr_div_pow2 by lia.
  set (q := n / 2 ^ e).
  assert (H2e : 0 < 2 ^ e) by (apply Z.pow_pos_nonneg; lia).
  assert (Hq : 2 ^ 52 <= q).
  { unfold q. apply Z.div_le_lower_bound; [lia|].
    rewrite Z.mul_comm, <- Z.pow_add_r by lia.
    replace (52 + e) with (Z.log2 n) by (unfold e; lia). exact Hlo. }
  match goal with
  | |- context [if ?b then q + 1 else q] => set (q' := if b then q + 1 else q)
  end.
  assert (Hq' : q <= q') by (unfold q'; destruct (_ || _); lia).
  rewrite Z.shiftl_mul_pow2 by lia.
  assert (H52 : 0 < 2 ^ 52) by (apply Z.pow_pos_nonneg; lia).
  apply Z.le_trans with (2 ^ 52 * 2 ^ e).
  - rewrite <- Z.pow_add_r by lia. apply Z.pow_le_mono_r; lia.
  - apply Z.mul_le_mono_nonneg_r; lia.
Qed.

Lemma candidate_exact (m k v : Z) :
  0 < m < 2 ^ 53 -> 0 <= JsNumber.ndigits m - k ->
  JsNumber.candidate m k = Some v -> v = m.
Proof.
  intros [Hm0 Hm] Hgap. unfold JsNumber.candidate.
  set (p := 10 ^ (JsNumber.ndigits m - k)).
  assert (Hp : 0 < p) by (apply Z.pow_pos_nonneg; lia).
  set (lo := m / p * p).
  assert (Hlo : 0 <= lo <= m).
  { unfold lo. pose proof (Z.mul_div_le m p Hp).
    pose proof (Z.div_pos m p ltac:(lia) Hp). nia. }
  assert (Hhi : m < lo + p).
  { unfold lo. pose proof (Z.mod_pos_bound m p Hp).
    pose proof (Z.div_mod m p ltac:(lia)). lia. }
  rewrite (round_to_double_small lo) by lia.
  assert (Hnothi : (JsNumber.round_to_double (lo + p) =? m) = false).
  { apply Z.eqb_neq.
    destruct (Z.lt_ge_cases (lo + p) (2 ^ 53)) as [Hs|Hb].
    - rewrite round_to_double_small by exact Hs. lia.
    - pose proof (round_to_double_large _ Hb). lia. }
  rewrite Hnothi.
  destruct (Z.eqb_spec lo m) as [Heq|Hne]; [|discriminate].
  now intros [= <-].
Qed.

(** An integer below [2^53] is printed in full. *)
Lemma printed_value_small (m : Z) :
  0 <= m < 2 ^ 53 -> JsNumber.printed_value m = m.
Proof.
  intros [Hm0 Hm]. unfold JsNumber.printed_value.
  assert (Hgen : forall fuel k, 1 <= k -> JsNumber.shortest_from fuel k m = m).
  { induction fuel as [|fuel IH]; intros k Hk; cbn [JsNumber.shortest_from];
      [reflexivity|].
    destruct (Z.leb_spec (JsNumber.ndigits m) k) as [|Hlt]; [reflexivity|].
    destruct (JsNumber.candidate m k) as [v|] eqn:Hc.
    - assert (Hpos : 0 < m).
      { destruct (Z.eq_dec m 0) as [->|]; [|lia].
        change (JsNumber.ndigits 0) with 1 in Hlt. lia. }
      apply (candidate_exact m k v); [lia| |exact Hc].
      lia.
    - apply IH. lia. }
  apply Hgen. lia.
Qed.

(** Reading the text of an integer below [2^53] as a [Number] and handing
    it to [BigNumber] keeps it. *)
Lemma of_number_small (n : Z) :
  0 <= n < 2 ^ 53 ->
  BigNumber.of_number (JsNumber.of_string (BN.toString n)) = BigNumber.Dec n 0.
Proof.
  intros Hn.
  rewrite of_string_digits by (apply toString_digits; lia).
  rewrite parse_toString by lia.
  unfold JsNumber.of_Z. rewrite Z.abs_eq by lia.
  rewrite round_to_double_small by lia.
  assert (H53 : 2 ^ 53 < 2 ^ 1024) by (apply Z.pow_lt_mono_r; lia).
  destruct (Z.leb_spec (2 ^ 1024) n); [lia|].
  destruct (Z.ltb_spec n 0); [lia|].
  cbn [BigNumber.of_number].
  destruct (Z.ltb_spec n 0); [lia|].
  rewrite Z.abs_eq by lia.
  now rewrite printed_value_small.
Qed.

(** Dividing by [10^d], for [d] up to twenty, is exact. *)
Lemma dividedBy_power_of_ten (n : Z) (d : nat) :
  0 <= n -> (1 <= d <= 20)%nat ->
  BigNumber.dividedBy (BigNumber.Dec n 0)
    (BigNumber.exponentiatedBy (BigNumber.Dec 10 0) d)
  = BigNumber.Dec (n * 10 ^ (20 - Z.of_nat d)) (-20).
Proof.
  intros Hn Hd. destruct d as [|d']; [lia|].
  change (BigNumber.exponentiatedBy (BigNumber.Dec 10 0) (S d'))
    with (BigNumber.Dec (10 ^ Z.of_nat (S d')) 0).
  remember (Z.of_nat (S d')) as D eqn:HD.
  assert (HDr : 1 <= D <= 20) by lia. clear HD Hd d'.
  unfold BigNumber.dividedBy.
  assert (Hpow : 0 < 10 ^ D) by (apply Z.pow_pos_nonneg; lia).
  destruct (Z.eqb_spec (10 ^ D) 0); [lia|].
  change (0 - 0 + BigNumber.DECIMAL_PLACES) with 20.
  change (0 <=? 20) with true. cbv iota.
  change (- BigNumber.DECIMAL_PLACES) with (-20).
  destruct (Z.ltb_spec n 0); [lia|].
  destruct (Z.ltb_spec (10 ^ D) 0); [lia|].
  cbn [xorb]. rewrite !Z.abs_eq by lia. rewrite Z.mul_1_r.
  f_equal.
  replace (10 ^ 20) with (10 ^ (20 - D) * 10 ^ D)
    by (rewrite <- Z.pow_add_r by lia; f_equal; lia).
  set (a := 10 ^ (20 - D)). set (b := 10 ^ D) in *.
  replace (2 * (n * (a * b)) + b) with (b + (n * a) * (2 * b)) by ring.
  rewrite Z.div_add by lia.
  rewrite Z.div_small by lia. lia.
Qed.

End NumberFacts.

Section Balances.
Import JsString JsStringFacts BNFacts Web3UtilsFacts DigitsFacts NumberFacts.

Variable contracts : ContractLib.t.
Variable network : Web3 -> Node.t.

(** X11: the native balance is reported exactly.  For a balance of [n]
    wei at the node, [getBalance] returns the text [fromWei] writes for [n],
    and [toWei] reads that text back as [n]: no digit is lost. *)
Theorem getBalance_native_exact (w : Wallet) (opts : IGetBalanceOptions.t)
    (n : Z) :
  token_asset (IGetBalanceOptions.token opts) = None ->
  Node.getBalance (network (provider w)) (IGetBalanceOptions.address opts)
  = Ok (BN.toString n) ->
  0 <= n ->
  getBalance contracts network w opts = Ok (Web3Utils.fromWei_unit 18 n)
  /\ Web3Utils.toWei (Web3Utils.fromWei_unit 18 n) = Ok (BN.toString n).
Proof.
  intros Hasset Hnode Hn. split.
  - unfold getBalance, balanceOf. rewrite Hasset, Hnode. cbn [bind].
    unfold Web3Utils.fromWei.
    rewrite numberToBN_digits by (apply toString_digits; exact Hn).
    now rewrite parse_toString.
  - unfold Web3Utils.toWei.
    now rewrite toWei_fromWei_unit by (lia || exact Hn).
Qed.

(** X12: a token balance below [2^53] base units, of a registered token
    with one to twenty decimals, is divided by [10^decimals] exactly: the
    text returned is that of the decimal [n * 10^(20 - decimals)] with
    twenty places. *)
Theorem getBalance_token_exact_small (w : Wallet)
    (opts : IGetBalanceOptions.t) (token : TokenTypes) (t : TToken.t)
    (contract : ContractLib.Contract contracts) (n : Z) :
  token_asset (IGetBalanceOptions.token opts) = Some token ->
  find_token contracts w token = Some t ->
  (1 <= TToken.decimals t <= 20)%nat ->
  ContractLib.newContract contracts (provider w) token
    (TToken.contractAddress t) None = Ok contract ->
  ContractLib.callBalanceOf contracts contract
    (IGetBalanceOptions.address opts) = Ok (BN.toString n) ->
  0 <= n < 2 ^ 53 ->
  getBalance contracts network w opts
  = Ok (BigNumber.toString
          (BigNumber.Dec (n * 10 ^ (20 - Z.of_nat (TToken.decimals t)))
             (-20))).
Proof.
  intros Hasset Hfind Hdec Hcontract Hcall Hn.
  unfold getBalance, getTokenContract, contractBalanceOf.
  rewrite Hasset, Hfind, Hcontract. cbn [bind]. rewrite Hcall. cbn [bind].
  rewrite (of_number_small n Hn).
  destruct (TToken.decimals t) as [|d] eqn:Hd; [lia|].
  rewrite dividedBy_power_of_ten by lia.
  reflexivity.
Qed.

(** X13: [setJsonRcpUrl] replaces the handle that calls go through and
    nothing else: the network name and the socket handle stay, and a native
    balance is then read from the node behind the new URL. *)
Theorem setJsonRcpUrl_frame (url : string) (w : Wallet) (address : string) :
  net (setJsonRcpUrl url w) = net w
  /\ socketProvider (setJsonRcpUrl url w) = socketProvider w
  /\ provider (setJsonRcpUrl url w) = new_Web3 url
  /\ getBalance contracts network (setJsonRcpUrl url w)
       {| IGetBalanceOptions.address := address;
          IGetBalanceOptions.token := None |}
     = (wei <- Node.getBalance (network (new_Web3 url)) address ;;
        Web3Utils.fromWei wei).
Proof. repeat split. Qed.

End Balances.

(** One and a half ether. *)
Lemma getBalance_native_exact_witness :
  getBalance (Fixture.contracts "0") (Fixture.network "1500000000000000000")
    (constructor None)
    {| IGetBalanceOptions.address := Fixture.alice;
       IGetBalanceOptions.token := None |} = Ok "1.5"
  /\ Web3Utils.toWei "1.5" = Ok "1500000000000000000".
Proof.
  exact (getBalance_native_exact (Fixture.contracts "0")
           (Fixture.network "1500000000000000000") (constructor None)
           {| IGetBalanceOptions.address := Fixture.alice;
              IGetBalanceOptions.token := None |}
           1500000000000000000 eq_refl eq_refl ltac:(lia)).
Defined.

(** One and a half USDT. *)
Lemma getBalance_token_exact_small_witness :
  getBalance (Fixture.contracts "1500000") (Fixture.network "0")
    (constructor None)
    {| IGetBalanceOptions.address := Fixture.alice;
       IGetBalanceOptions.token := Some USDT |} = Ok "1.5".
Proof.
  refine (getBalance_token_exact_small (Fixture.contracts "1500000")
            (Fixture.network "0") (constructor None)
            {| IGetBalanceOptions.address := Fixture.alice;
               IGetBalanceOptions.token := Some USDT |}
            USDT Fixture.usdt
            (Fixture.mkContract USDT
               "0xdac17f958d2ee523a2206206994597c13d831ec7" None)
            1500000 eq_refl eq_refl _ eq_refl eq_refl _).
  - cbn. lia.
  - split; [lia|reflexivity].
Defined.

(* ------------------------------------------------------------------ *)
(** * [send] *)

Module HexFacts.
Import JsString JsStringFacts BNFacts Web3UtilsFacts.

(** [toHex] of a number written in decimal digits, unless there are forty
    of them. *)
Lemma toHex_digits (check : string -> bool) (s : string) :
  some_chars is_digit s = true ->
  String.length s <> 40%nat ->
  BN.parse_from 10 0 s < 2 ^ 1023 ->
  Web3Utils.toHex check s = Ok ("0x" ++ BN.toString16 (BN.parse_from 10 0 s)).
Proof.
  intros Hs Hlen Hbound. pose proof Hs as Hs'.
  unfold some_chars in Hs'. apply andb_true_iff in Hs' as [_ Hd].
  pose proof (parse_from_nonneg s 0 Hd (Z.le_refl 0)) as Hnn.
  assert (Hfinite : JsNumber.isFinite s = true).
  { unfold JsNumber.isFinite. rewrite (of_string_digits s Hs).
    unfold JsNumber.of_Z. rewrite Z.abs_eq by lia.
    pose proof (round_to_double_bound _ (conj Hnn Hbound)) as [_ Hb].
    destruct (Z.leb_spec (2 ^ 1024)
                (JsNumber.round_to_double (BN.parse_from 10 0 s)));
      [lia|reflexivity]. }
  unfold Web3Utils.toHex.
  rewrite (isAddress_digits check _ Hd).
  destruct (Nat.eqb_spec (String.length s) 40); [contradiction|].
  rewrite (digits_no_minus _ _ Hd), (digits_no_minus _ _ Hd).
  rewrite (digits_no_0x _ Hd), (digits_no_0X _ Hd). cbn [orb].
  rewrite Hfinite. cbn [negb].
  unfold Web3Utils.numberToHex. rewrite Hfinite. cbn [negb andb].
  rewrite (toBN_digits s Hs). cbn [bind].
  destruct (Z.ltb_spec (BN.parse_from 10 0 s) 0); [lia|reflexivity].
Qed.

End HexFacts.

Section Send.
Import JsString Web3UtilsFacts HexFacts.

Variable contracts : ContractLib.t.
Variable network : Web3 -> Node.t.
Variable sign_and_serialize : Signer.

(** X14: [send] signs the descriptor with its gas limit and gas price in
    hexadecimal and its other fields as they are, for the chain of the
    wallet's [net] and with the key decoded from hexadecimal.  When the
    signer throws, [send] rejects with its error and nothing is broadcast;
    otherwise the serialization goes to the node behind the wallet's
    handle, and [send] resolves with the first receipt, rejects with
    [Broadcast Transaction Failed!] on an empty receipt, and never settles
    when no receipt comes. *)
Theorem send_outcomes (w : Wallet) (opts : IEstimate.t) (privKey : string) :
  0 <= IEstimate.gasLimit opts < 2 ^ 53 ->
  some_chars is_digit (IEstimate.gasPrice opts) = true ->
  String.length (IEstimate.gasPrice opts) <> 40%nat ->
  BN.parse_from 10 0 (IEstimate.gasPrice opts) < 2 ^ 1023 ->
  send contracts network sign_and_serialize w opts privKey
  = match sign_and_serialize (signed_fields opts) (chain_name (net w))
            (Buffer.from_hex privKey) with
    | Throw e => Settled (Throw e)
    | Ok serialized =>
        match Node.sendSignedTransaction (network (provider w))
                ("0x" ++ Buffer.toString_hex serialized) with
        | Some (Some receipt) => Settled (Ok receipt)
        | Some None => Settled (Throw "Broadcast Transaction Failed!")
        | None => Forever
        end
    end.
Proof.
  intros Hlimit Hprice Hlen Hbound.
  unfold send, raw_transaction, broadcastTransaction, toHex.
  rewrite (toHex_number_safe _ Hlimit). cbn [bind].
  rewrite (toHex_digits _ _ Hprice Hlen Hbound). cbn [bind].
  fold (signed_fields opts).
  destruct (sign_and_serialize _ _ _) as [serialized|e]; reflexivity.
Qed.

End Send.

(** The estimate of a transfer of two ether, sent to a node that mines
    it. *)
Lemma send_outcomes_witness :
  send (Fixture.contracts "0") Fixture.network_mining Fixture.signer
    (constructor None)
    {| IEstimate.nonce := "0x7"; IEstimate.to := Fixture.bob;
       IEstimate.value := "0x1bc16d674ec80000"; IEstimate.gasLimit := 21000;
       IEstimate.gasPrice := "20000000000"; IEstimate.data := None |}
    "0a0b"
  = Settled (Ok (Fixture.payment Fixture.bob)).
Proof.
  refine (send_outcomes (Fixture.contracts "0") Fixture.network_mining
            Fixture.signer (constructor None)
            {| IEstimate.nonce := "0x7"; IEstimate.to := Fixture.bob;
               IEstimate.value := "0x1bc16d674ec80000";
               IEstimate.gasLimit := 21000;
               IEstimate.gasPrice := "20000000000";
               IEstimate.data := None |}
            "0a0b" _ eq_refl _ _).
  - split; [cbn; lia|reflexivity].
  - vm_compute. discriminate.
  - reflexivity.
Defined.

(* ------------------------------------------------------------------ *)
(** * More on the payment monitor *)

Module TraceFacts.
Import MonitorFacts.

Lemma events_of_app (hash : string) (ts : list Timer)
    (old new : list (string * Emission)) :
  events_of hash {| timers := ts; emitted := old ++ new |}
  = (map snd (filter (fun e => String.eqb (fst e) hash) old)
     ++ map snd (filter (fun e => String.eqb (fst e) hash) new))%list.
Proof. unfold events_of. cbn [emitted]. now rewrite filter_app, map_app. Qed.

Lemma take_timer_rest (hash : string) (ts rest : list Timer) :
  take_timer hash ts = Some rest ->
  List.length ts = S (List.length rest)
  /\ (forall t, In t rest -> In t ts).
Proof.
  revert rest. induction ts as [|t ts IH]; intros rest; cbn [take_timer];
    [discriminate|].
  destruct (String.eqb (captured t) hash).
  - intros [= <-]. split; [reflexivity|]. intros t' Hin. now right.
  - destruct (take_timer hash ts) as [rest'|]; [|discriminate].
    intros [= <-]. destruct (IH rest' eq_refl) as [Hlen Hin].
    split; [cbn [List.length]; lia|].
    intros t' [->|Hin']; [now left|right; now apply Hin].
Qed.

Lemma filter_tagged (vault : list string) (hash : string) (cb : Callback) :
  map snd (filter (fun e => String.eqb (fst e) hash) (emissions vault cb))
  = if String.eqb (hash_of cb) hash then map snd (emissions vault cb) else [].
Proof.
  destruct (String.eqb_spec (hash_of cb) hash) as [Heq|Hne].
  - now rewrite (filter_emissions_same vault cb hash Heq).
  - pose proof (filter_emissions_other vault hash [cb]) as H.
    cbn [flat_map] in H. rewrite app_nil_r in H.
    rewrite H; [reflexivity|]. now constructor.
Qed.

(** The events of a hash are what the callbacks of that hash emit. *)
Lemma events_of_flat_map (vault : list string) (hash : string)
    (schedule : list Callback) :
  map snd (filter (fun e => String.eqb (fst e) hash)
             (flat_map (emissions vault) schedule))
  = flat_map (fun cb => map snd (emissions vault cb))
      (filter (fun cb => String.eqb (hash_of cb) hash) schedule).
Proof.
  induction schedule as [|cb rest IH]; [reflexivity|].
  cbn [flat_map filter]. rewrite filter_app, map_app, IH, filter_tagged.
  destruct (String.eqb (hash_of cb) hash); reflexivity.
Qed.

Lemma data_first_on_data (h0 : string) (m : Monitor) :
  data_first m -> data_first (on_data h0 m).
Proof.
  intros Hm hash Hcase. unfold on_data in *. cbn [timers] in Hcase.
  rewrite events_of_app in *. fold (events_of hash m) in *.
  cbn [filter fst] in *.
  destruct (String.eqb_spec h0 hash) as [->|Hne].
  - cbn [map snd] in *.
    destruct (events_of hash m) as [|e es] eqn:E.
    + now exists [].
    + destruct (Hm hash) as [rest Hrest];
        [right; rewrite E; discriminate|].
      rewrite E in Hrest. injection Hrest as -> ->.
      eexists. reflexivity.
  - cbn [map] in *. rewrite app_nil_r in *.
    apply Hm. destruct Hcase as [(t & Hin & Hc)|Hev]; [left|now right].
    apply in_app_or in Hin as [Hin|[<-|[]]].
    + now exists t.
    + now elim Hne.
Qed.

Lemma data_first_on_timer (vault : list string) (h0 : string)
    (response : result (option ITransaction.t)) (m m' : Monitor) :
  data_first m -> on_timer vault h0 response m = Some m' -> data_first m'.
Proof.
  intros Hm. unfold on_timer.
  destruct (take_timer h0 (timers m)) as [rest|] eqn:Htake; [|discriminate].
  intros [= <-] hash Hcase. cbn [timers] in Hcase.
  rewrite events_of_app in *. fold (events_of hash m) in *.
  destruct (take_timer_rest h0 _ _ Htake) as [_ Hsub].
  destruct (String.eqb_spec h0 hash) as [->|Hne].
  - destruct (Hm hash) as [r Hr];
      [left; now apply take_timer_in with rest|].
    rewrite Hr. eexists. reflexivity.
  - assert (Hnone : map snd
                      (filter (fun e => String.eqb (fst e) hash)
                         (map (pair h0) (recheck vault h0 response))) = []).
    { change (map (pair h0) (recheck vault h0 response))
        with (emissions vault (OnTimer h0 response)).
      rewrite filter_tagged. cbn [hash_of].
      now apply String.eqb_neq in Hne as ->. }
    rewrite Hnone, app_nil_r in *.
    apply Hm. destruct Hcase as [(t & Hin & Hc)|Hev]; [left|now right].
    exists t. split; [now apply Hsub|exact Hc].
Qed.

Lemma data_first_run (vault : list string) (schedule : list Callback)
    (m m' : Monitor) :
  data_first m -> run vault schedule m = Some m' -> data_first m'.
Proof.
  revert m. induction schedule as [|cb rest IH]; intros m Hm; cbn [run].
  - now intros [= <-].
  - destruct cb as [h0|h0 response].
    + apply IH. now apply data_first_on_data.
    + destruct (on_timer vault h0 response m) as [m1|] eqn:Hstep;
        [|discriminate].
      apply IH. now apply data_first_on_timer with vault h0 response m.
Qed.

Lemma data_first_initial : data_first {| timers := []; emitted := [] |}.
Proof.
  intros hash [(t & [] & _)|Hev]. now elim Hev.
Qed.


End TraceFacts.

Section MonitorRuns.
Import MonitorFacts TraceFacts.

Variable vault : list string.

(** X15: in any run of the monitor, the events of a hash are what the
    callbacks of that hash emit, in their order: callbacks of other hashes,
    however interleaved, change nothing for it. *)
Theorem events_depend_on_own_callbacks (schedule : list Callback)
    (m : Monitor) (hash : string) :
  subscribe vault schedule = Some m ->
  events_of hash m
  = flat_map (fun cb => map snd (emissions vault cb))
      (filter (fun cb => String.eqb (hash_of cb) hash) schedule).
Proof.
  intros Hrun. unfold events_of, subscribe in *.
  rewrite (run_emitted _ _ _ _ Hrun). cbn [emitted app].
  apply events_of_flat_map.
Qed.

(** X16: in any run of the monitor, nothing is emitted for a hash before
    its [DATA]: the events of every hash are none, or start with
    [DATA(hash)]. *)
Theorem data_comes_first (schedule : list Callback) (m : Monitor)
    (hash : string) :
  subscribe vault schedule = Some m ->
  events_of hash m = []
  \/ exists rest, events_of hash m = emit DATA [ArgHash hash] :: rest.
Proof.
  intros Hrun.
  pose proof (data_first_run vault schedule _ m data_first_initial Hrun) as H.
  destruct (events_of hash m) as [|e es] eqn:E; [now left|right].
  destruct (H hash) as [rest Hrest]; [right; rewrite E; discriminate|].
  rewrite E in Hrest. now exists es; rewrite Hrest; injection Hrest as -> ->.
Qed.



End MonitorRuns.

(** Two hashes interleaved, seen from the second. *)
Lemma events_depend_on_own_callbacks_witness :
  exists m,
    subscribe ["0xABC"]
      [OnData "h1"; OnData "h2"; OnTimer "h1" (Ok None);
       OnTimer "h2" (Throw "timeout")] = Some m
    /\ events_of "h2" m
       = flat_map (fun cb => map snd (emissions ["0xABC"] cb))
           [OnData "h2"; OnTimer "h2" (Throw "timeout")].
Proof.
  eexists. split; [reflexivity|].
  exact (events_depend_on_own_callbacks ["0xABC"]
           [OnData "h1"; OnData "h2"; OnTimer "h1" (Ok None);
            OnTimer "h2" (Throw "timeout")] _ "h2" eq_refl).
Defined.

(** A payment to a watched address. *)
Lemma data_comes_first_witness :
  exists m rest,
    subscribe ["0xabc"]
      [OnData "h1"; OnTimer "h1" (Ok (Some (Fixture.payment "0xabc")))]
    = Some m
    /\ events_of "h1" m = emit DATA [ArgHash "h1"] :: rest.
Proof.
  eexists. eexists. split; [reflexivity|].
  destruct (data_comes_first ["0xabc"]
              [OnData "h1"; OnTimer "h1" (Ok (Some (Fixture.payment "0xabc")))]
              _ "h1" eq_refl) as [Hnone|[rest Hrest]].
  - discriminate Hnone.
  - reflexivity.
Defined.



(* ------------------------------------------------------------------ *)
(** * Corner cases of the conversions *)

Module CornerFacts.
Import JsString JsStringFacts BNFacts Web3UtilsFacts UnitFacts.

(** Digits and the letters [a] to [f]. *)
Lemma lower_hex_chars (s : string) :
  all_chars (fun c => is_digit c || is_lower_hex c) s = true ->
  all_chars (fun c => negb (is_space c)) s = true
  /\ all_chars (fun c => negb (is_upper c)) s = true
  /\ all_chars is_hex s = true.
Proof.
  intros H. repeat split; revert H; apply all_chars_impl; intros c Hc;
    apply orb_true_iff in Hc as [Hc|Hc];
    try (now apply digit_not_space); try (now apply digit_not_upper);
    try (now apply digit_is_hex); code_cases.
Qed.

Lemma lower_hex_no_0x (s : string) :
  all_chars (fun c => is_digit c || is_lower_hex c) s = true ->
  prefix "0x" s = false.
Proof.
  destruct s as [|c [|d r]]; cbn [prefix all_chars]; try reflexivity.
  - now destruct (ascii_dec "0" c).
  - intros H. destruct (ascii_dec "0" c); [|reflexivity].
    destruct (ascii_dec "x" d) as [<-|]; [|reflexivity].
    now rewrite andb_false_r in H.
Qed.

Lemma lower_hex_no_minus (p s : string) :
  all_chars (fun c => is_digit c || is_lower_hex c) s = true ->
  prefix (String "-" p) s = false.
Proof.
  destruct s as [|c r]; cbn [prefix all_chars]; [reflexivity|].
  intros H. destruct (ascii_dec "-" c) as [<-|]; [discriminate H|reflexivity].
Qed.

(** [numberToBN] reads a text of digits and letters [a] to [f], with a
    letter in it, in base sixteen. *)
Lemma numberToBN_letters (s : string) :
  all_chars (fun c => is_digit c || is_lower_hex c) s = true ->
  all_chars is_digit s = false ->
  Web3Utils.numberToBN s = Ok (BN.parse_from 16 0 s).
Proof.
  intros Hs Hletter.
  destruct (lower_hex_chars s Hs) as (Hspace & Hupper & Hhex).
  unfold Web3Utils.numberToBN.
  rewrite (toLowerCase_id s Hupper), (trim_id s Hspace).
  unfold Web3Utils.stripHexPrefix.
  rewrite (lower_hex_no_0x s Hs), (lower_hex_no_minus _ s Hs).
  destruct s as [|c r]; [discriminate Hletter|].
  assert (Hint : some_chars is_digit (String c r) = false)
    by (unfold some_chars; now rewrite Hletter).
  assert (Hsome : some_chars is_hex (String c r) = true)
    by (unfold some_chars; now rewrite Hhex).
  cbn [all_chars] in Hs. apply andb_true_iff in Hs as [Hc _].
  destruct c as [[] [] [] [] [] [] [] []]; try discriminate Hc;
    cbv beta iota zeta;
    cbn [is_empty Web3Utils.is_integer_text BN.of_string orb andb negb];
    rewrite Hint, Hsome; cbn [orb andb negb]; now rewrite Z.mul_1_r.
Qed.

(** [toHex] takes a text of forty decimal digits for an address. *)
Lemma toHex_forty_digits (check : string -> bool) (s : string) :
  all_chars is_digit s = true ->
  String.length s = 40%nat ->
  Web3Utils.toHex check s = Ok ("0x" ++ s).
Proof.
  intros Hd Hlen. unfold Web3Utils.toHex.
  rewrite (isAddress_digits check s Hd), Hlen. cbn [Nat.eqb].
  change (40 =? 40)%nat with true. cbv iota.
  rewrite (toLowerCase_id s (digits_no_upper s Hd)).
  unfold Web3Utils.strip_0x_any_case.
  now rewrite (digits_no_0x s Hd), (digits_no_0X s Hd).
Qed.

End CornerFacts.

Section Corners.
Import JsString JsStringFacts BNFacts Web3UtilsFacts UnitFacts NumberFacts
  CornerFacts.

Variable contracts : ContractLib.t.
Variable network : Web3 -> Node.t.

(** X19: a token amount written with a letter from [a] to [f] among its
    digits is read in base sixteen: the transfer that [estimateFees] encodes
    is for that hexadecimal number times [10^decimals]. *)
Theorem estimateFees_token_letters (w : Wallet) (opts : ISend.t)
    (token : TokenTypes) (t : TToken.t) (d : IEstimate.t) :
  token_asset (ISend.token opts) = Some token ->
  find_token contracts w token = Some t ->
  all_chars (fun c => is_digit c || is_lower_hex c) (ISend.amount opts) = true ->
  all_chars is_digit (ISend.amount opts) = false ->
  estimateFees contracts network w opts = Ok d ->
  exists contract arguments,
    ContractLib.encodeTransferArguments contracts contract (ISend.to opts)
      (BN.toString (BN.parse_from 16 0 (ISend.amount opts)
                    * 10 ^ Z.of_nat (TToken.decimals t))) = Ok arguments
    /\ IEstimate.data d
       = Some ("0x" ++ ContractLib.transferSelector contracts contract
               ++ arguments).
Proof.
  intros Hasset Hfind Hs Hletter Hd.
  destruct (estimateFees_token contracts network w opts d token Hasset Hd)
    as (_ & _ & contract & amount & arguments & HtoBN & Hargs & Hdata).
  unfold Web3Utils.toBN in HtoBN.
  rewrite (numberToBN_letters _ Hs Hletter) in HtoBN.
  injection HtoBN as <-. rewrite Hfind in Hargs.
  now exists contract, arguments.
Qed.

(** X20: when the amount of a native transfer, in wei, is written with
    forty decimal digits, the value of the descriptor is [0x] followed by
    those decimal digits, not the hexadecimal digits of the amount. *)
Theorem estimateFees_forty_digit_wei (w : Wallet) (opts : ISend.t)
    (d : IEstimate.t) :
  token_asset (ISend.token opts) = None ->
  some_chars is_digit (ISend.amount opts) = true ->
  String.length
    (BN.toString (BN.parse_from 10 0 (ISend.amount opts) * 10 ^ 18)) = 40%nat ->
  estimateFees contracts network w opts = Ok d ->
  IEstimate.value d
  = "0x" ++ BN.toString (BN.parse_from 10 0 (ISend.amount opts) * 10 ^ 18).
Proof.
  intros Hasset Hamount Hlen Hd.
  destruct (estimateFees_native contracts network w opts d Hasset Hd)
    as (_ & _ & wei & Hwei & Hvalue).
  unfold Web3Utils.toWei in Hwei.
  rewrite (toWei_unit_whole 18 _) in Hwei by (lia || exact Hamount).
  cbn [bind] in Hwei. injection Hwei as <-.
  unfold toHex in Hvalue.
  rewrite toHex_forty_digits in Hvalue; [now injection Hvalue as <-| |exact Hlen].
  apply toString_all_digits.
  unfold some_chars in Hamount. apply andb_true_iff in Hamount as [_ Hdigits].
  pose proof (parse_from_nonneg _ 0 Hdigits (Z.le_refl 0)). lia.
Qed.

(** X21: the decimals of a token that is missing from the registry, or
    registered with none, are taken to be eighteen: a raw balance [n] below
    [2^53] is reported as [n / 10^18]. *)
Theorem getBalance_decimals_fallback (w : Wallet)
    (opts : IGetBalanceOptions.t) (token : TokenTypes)
    (contract : ContractLib.Contract contracts) (n : Z) :
  token_asset (IGetBalanceOptions.token opts) = Some token ->
  match find_token contracts w token with
  | Some t => TToken.decimals t = 0%nat
  | None => True
  end ->
  ContractLib.newContract contracts (provider w) token
    (match find_token contracts w token with
     | Some t => TToken.contractAddress t
     | None => EmptyString
     end) None = Ok contract ->
  ContractLib.callBalanceOf contracts contract
    (IGetBalanceOptions.address opts) = Ok (BN.toString n) ->
  0 <= n < 2 ^ 53 ->
  getBalance contracts network w opts
  = Ok (BigNumber.toString (BigNumber.Dec (n * 10 ^ (20 - 18)) (-20))).
Proof.
  intros Hasset Hdec Hcontract Hcall Hn.
  unfold getBalance, getTokenContract, contractBalanceOf.
  rewrite Hasset, Hcontract. cbn [bind]. rewrite Hcall. cbn [bind].
  rewrite (of_number_small n Hn).
  destruct (find_token contracts w token) as [t|];
    [rewrite Hdec|];
    rewrite (dividedBy_power_of_ten n 18) by lia; reflexivity.
Qed.

(** X22: a token is looked up in the registry of the wallet's [net] by
    the value of its enum member: the entry found is in that registry and
    has that value as its symbol (an entry whose symbol is written in another
    case is never found), and the native asset alone skips the lookup. *)
Theorem token_lookup (w : Wallet) (token : TokenTypes) :
  (forall t,
     find_token contracts w token = Some t ->
     In t (ContractLib.erc20Tokens contracts (net w))
     /\ TToken.symbol t = TokenTypes_value token)
  /\ (find_token contracts w token = None ->
      forall t,
        In t (ContractLib.erc20Tokens contracts (net w)) ->
        TToken.symbol t <> TokenTypes_value token)
  /\ (token_asset (Some token) = None <-> token = ETH).
Proof.
  assert (Hlower : toLowerCase (TokenTypes_value token) = TokenTypes_value token)
    by (destruct token; reflexivity).
  unfold find_token. rewrite Hlower. split; [|split].
  - intros t Hfind. apply find_some in Hfind as [Hin Heq].
    split; [exact Hin|now apply String.eqb_eq].
  - intros Hnone t Hin Heq.
    pose proof (find_none _ _ Hnone t Hin) as Hne. cbv beta in Hne.
    rewrite Heq, String.eqb_refl in Hne. discriminate Hne.
  - destruct token; cbn; split; intros H; try reflexivity; discriminate H.
Qed.

End Corners.

Section KeyErrors.

Variable keys : KeyLib.t.

(** X23: when the key library refuses the private key (the raw key if one
    is given, the derived key otherwise), [createWallet] rejects with the
    library's error and returns no wallet. *)
Theorem createWallet_key_refused (fresh : string)
    (type : option WalletTypes) (privateKey mnemonics : option string)
    (e : JsError) :
  type <> Some MULTISIG ->
  KeyLib.privateToPublic keys
    (match truthy privateKey with
     | Some k => Buffer.from k
     | None =>
         KeyLib.privateKey keys
           (KeyLib.derive keys
              (KeyLib.fromMasterSeed keys
                 (KeyLib.mnemonicToSeed keys
                    (match truthy mnemonics with
                     | Some m => m
                     | None => fresh
                     end)))
              DEFAULT_DERIVATION_PATH)
     end) = Throw e ->
  createWallet keys fresh
    (Some {| ICreateWalletOptions.type := type;
             ICreateWalletOptions.privateKey := privateKey;
             ICreateWalletOptions.mnemonics := mnemonics |}) = Throw e.
Proof.
  intros Htype Hkey. unfold createWallet.
  cbn [ICreateWalletOptions.mnemonics ICreateWalletOptions.privateKey
       ICreateWalletOptions.type].
  destruct type as [[| |]|]; try (now elim Htype); now rewrite Hkey.
Qed.

End KeyErrors.

(** The amount [1e3] of USDT: 483 units. *)
Lemma estimateFees_token_letters_witness :
  exists d,
    estimateFees (Fixture.contracts "0") (Fixture.network "0")
      (constructor None)
      {| ISend.from := Fixture.alice; ISend.to := Fixture.bob;
         ISend.amount := "1e3"; ISend.token := Some USDT |} = Ok d
    /\ exists contract arguments,
         ContractLib.encodeTransferArguments (Fixture.contracts "0") contract
           Fixture.bob (BN.toString (483 * 10 ^ 6)) = Ok arguments
         /\ IEstimate.data d
            = Some ("0x" ++ ContractLib.transferSelector (Fixture.contracts "0")
                              contract ++ arguments).
Proof.
  eexists. split; [vm_compute; reflexivity|].
  match goal with
  | |- exists contract arguments, _ /\ IEstimate.data ?d = _ =>
      exact (estimateFees_token_letters (Fixture.contracts "0")
               (Fixture.network "0") (constructor None)
               {| ISend.from := Fixture.alice; ISend.to := Fixture.bob;
                  ISend.amount := "1e3"; ISend.token := Some USDT |}
               USDT Fixture.usdt d eq_refl eq_refl eq_refl eq_refl eq_refl)
  end.
Defined.

(** Ten to the twenty-one ether. *)
Lemma estimateFees_forty_digit_wei_witness :
  exists d,
    estimateFees (Fixture.contracts "0") (Fixture.network "0")
      (constructor None)
      {| ISend.from := Fixture.alice; ISend.to := Fixture.bob;
         ISend.amount := "1000000000000000000000"; ISend.token := None |}
    = Ok d
    /\ IEstimate.value d = "0x1000000000000000000000000000000000000000".
Proof.
  eexists. split; [vm_compute; reflexivity|].
  match goal with
  | |- IEstimate.value ?d = _ =>
      exact (estimateFees_forty_digit_wei (Fixture.contracts "0")
               (Fixture.network "0") (constructor None)
               {| ISend.from := Fixture.alice; ISend.to := Fixture.bob;
                  ISend.amount := "1000000000000000000000";
                  ISend.token := None |}
               d eq_refl eq_refl eq_refl eq_refl)
  end.
Defined.

(** Forty-two units of a token registered without decimals. *)
Lemma getBalance_decimals_fallback_witness :
  getBalance (Fixture.contracts_with_points "42") (Fixture.network "0")
    (constructor None)
    {| IGetBalanceOptions.address := Fixture.alice;
       IGetBalanceOptions.token := Some LINK |}
  = Ok "4.2e-17".
Proof.
  refine (getBalance_decimals_fallback (Fixture.contracts_with_points "42")
            (Fixture.network "0") (constructor None)
            {| IGetBalanceOptions.address := Fixture.alice;
               IGetBalanceOptions.token := Some LINK |}
            LINK
            (Fixture.mkContract LINK
               "0x514910771af9ca656af840dff83e8264ecf986ca" None)
            42 eq_refl eq_refl eq_refl eq_refl _).
  split; [lia|reflexivity].
Defined.

(** A raw key of sixty-four hexadecimal digits, given to a library that
    takes keys of 32 bytes: read as text it has 64. *)
Lemma createWallet_key_refused_witness :
  createWallet Fixture.strict_keys "draw"
    (Some {| ICreateWalletOptions.type := None;
             ICreateWalletOptions.privateKey :=
               Some "4c0883a69102937d6231471b5dbb6204fe5129617082792ae468d01a3f362318";
             ICreateWalletOptions.mnemonics := None |})
  = Throw "private key length is invalid".
Proof.
  refine (createWallet_key_refused Fixture.strict_keys "draw" None
            (Some "4c0883a69102937d6231471b5dbb6204fe5129617082792ae468d01a3f362318")
            None "private key length is invalid" _ eq_refl).
  discriminate.
Defined.
